(** * AuraFit Gym front-end: membership and payment ledger

    A shallow embedding of the pieces of the React pages that carry the
    ledger logic (the aggregates of [AdminDashboard], the forms and submit
    handlers of [MemberPayment], [PaymentsManagement] and
    [MembershipsManagement]), with the properties the specification states
    about them. *)

From Stdlib Require Import ZArith Lia SpecFloat.
From stdpp Require Import gmap strings list pretty.

Open Scope Z_scope.

(** ** JavaScript numbers

    Amounts, fees and durations are JavaScript numbers, that is IEEE 754
    binary64 values.  The pages only ever add, compare and test them for
    truthiness, and the forms step in whole Kyat, so the embedding keeps the
    integer-valued doubles, the two infinities and NaN.  The sum of two
    integer-valued doubles is the exact integer sum rounded to 53
    significant bits, ties to even; it overflows to an infinity from
    2^1024 on.  The two zeros are identified: no operation used by the pages
    tells them apart. *)

Module Number.

Inductive number : Type :=
| Num (z : Z)
| Infinity (negative : bool)
| NaN.

(** Round an integer to the nearest integer that a binary64 holds. *)
Definition round53 (z : Z) : Z :=
  let a := Z.abs z in
  if a <? 2 ^ 53 then z
  else
    let e := Z.log2 a - 52 in
    let q := a / 2 ^ e in
    let r := a mod 2 ^ e in
    let half := 2 ^ (e - 1) in
    let q' := if r <? half then q
              else if half <? r then q + 1
              else if Z.even q then q else q + 1 in
    Z.sgn z * (q' * 2 ^ e).

Definition overflow : Z := 2 ^ 1024.

Definition ofInteger (z : Z) : number :=
  let r := round53 z in
  if overflow <=? Z.abs r then Infinity (r <? 0) else Num r.

(** [a + b] *)
Definition add (a b : number) : number :=
  match a, b with
  | NaN, _ | _, NaN => NaN
  | Infinity s, Infinity s' => if Bool.eqb s s' then Infinity s else NaN
  | Infinity s, Num _ | Num _, Infinity s => Infinity s
  | Num x, Num y => ofInteger (x + y)
  end.

(** [a <= b] *)
Definition le (a b : number) : bool :=
  match a, b with
  | NaN, _ | _, NaN => false
  | Num x, Num y => x <=? y
  | Infinity s, Infinity s' => implb s' s
  | Infinity s, Num _ => s
  | Num _, Infinity s => negb s
  end.

(** [a === b] *)
Definition strictEq (a b : number) : bool :=
  match a, b with
  | Num x, Num y => x =? y
  | Infinity s, Infinity s' => Bool.eqb s s'
  | _, _ => false
  end.

(** Truthiness: [0] and [NaN] are the falsy numbers. *)
Definition truthy (a : number) : bool :=
  match a with
  | Num z => negb (z =? 0)
  | Infinity _ => true
  | NaN => false
  end.

(** [a || b] on numbers *)
Definition orElse (a b : number) : number := if truthy a then a else b.

(** The same values in the Standard Library's specification of IEEE 754
    arithmetic, instantiated at binary64 (53 bits of precision, emax 1024),
    to compare [add] against. *)
Definition toBinary64 (a : number) : spec_float :=
  match a with
  | Num z => binary_normalize 53 1024 z 0 false
  | Infinity s => S754_infinity s
  | NaN => S754_nan
  end.

Definition addBinary64 (a b : number) : spec_float :=
  SFadd 53 1024 (toBinary64 a) (toBinary64 b).

End Number.

Import Number.

(** ** Records of the REST interface

    The fields of [Membership] and [Payment] (types/index.ts) that the pages
    read.  Statuses, methods and dates arrive as JSON strings; numeric fields
    are held as the value [Number(...)] gives. *)

Module Membership.
Record t : Type := mk {
  id : Z;
  type : string;
  duration : number;
  fee : number;
  start_date : string;
  end_date : string;
  status : string;
}.
End Membership.

Module Payment.
Record t : Type := mk {
  id : Z;
  amount : number;
  method : string;
  date : string;
  status : string;
}.
End Payment.

Record MembershipStatusResponse : Type := {
  has_active_membership : bool;
  active_membership : option Membership.t;
}.

(** Modelled from the spec: the resolver behind [membershipsApi.getStatus]
    (GET /memberships/status) runs in the backend and is not part of the
    sources.  Section 4.1: select the membership with status == "active";
    if none, has_active_membership = false and active_membership = null. *)
Definition resolveStatus (memberships : list Membership.t) : MembershipStatusResponse :=
  match list_find (λ m, Membership.status m = "active") memberships with
  | Some (_, m) => {| has_active_membership := true; active_membership := Some m |}
  | None => {| has_active_membership := false; active_membership := None |}
  end.

(** ** Date objects

    A [Date] as the pages observe it, through [getMonth] and [getFullYear]:
    the local-time calendar fields of a valid time value, or an invalid
    date, on which both getters return NaN.  Parsing a date string
    ([new Date(p.date)]) and reading the clock ([new Date()]) belong to the
    platform and are parameters of the definitions that use them. *)

Inductive Date : Type :=
| ValidDate (fullYear month : Z)
| InvalidDate.

Definition getMonth (d : Date) : number :=
  match d with ValidDate _ m => Num m | InvalidDate => NaN end.

Definition getFullYear (d : Date) : number :=
  match d with ValidDate y _ => Num y | InvalidDate => NaN end.

(** [(sum, p) => sum + Number(p.amount)] *)
Definition addAmount (sum : number) (p : Payment.t) : number :=
  add sum (Payment.amount p).

(** ** pages/AdminDashboard.tsx *)

Module AdminDashboard.

Section Aggregates.
Variable newDate : string → Date.
Variable now : Date.

Definition inThisMonth (p : Payment.t) : bool :=
  let paymentDate := newDate (Payment.date p) in
  strictEq (getMonth paymentDate) (getMonth now)
  && strictEq (getFullYear paymentDate) (getFullYear now).

Definition thisMonthRevenue (payments : list Payment.t) : number :=
  foldl addAmount (Num 0) (filter inThisMonth payments).

End Aggregates.

Definition activeMemberships (memberships : list Membership.t) : nat :=
  length (filter (λ m, Membership.status m = "active") memberships).

End AdminDashboard.

(** ** Requests, notifications and asynchronous handlers *)

Module CreatePaymentData.
Record t : Type := mk {
  member_id : Z;
  amount : number;
  method : string;
}.
End CreatePaymentData.

Module CreateMembershipData.
Record t : Type := mk {
  member_id : Z;
  type : string;
  duration : number;
  fee : number;
}.
End CreateMembershipData.

Inductive Mutation : Type :=
| CreatePayment (data : CreatePaymentData.t)
| CreateMembership (data : CreateMembershipData.t).

Inductive Query : Type :=
| AllPayments
| MyPayments
| MembershipStatus
| AllMemberships.

(** What a handler does to the outside: send a mutation to the backend,
    re-run a query, drop cached responses, raise a toast. *)
Inductive Effect : Type :=
| Post (call : Mutation)
| Refetch (query : Query)
| ClearCache (url : string)
| ShowSuccess (message : string)
| ShowError (message : string).

(** A rejected request, as far as the handlers look into it:
    [error.response?.data?.message]. *)
Record ApiError : Type := { response_data_message : option string }.

Inductive Result : Type :=
| Resolved
| Rejected (error : ApiError).

(** [error.response?.data?.message || fallback]: the empty string is falsy
    as well. *)
Definition messageOr (error : ApiError) (fallback : string) : string :=
  match response_data_message error with
  | Some message => if decide (message = "") then fallback else message
  | None => fallback
  end.

(** An event handler either runs to completion, or stops at its [await]
    with the request sent and the rest of its body waiting for the answer.
    The rest runs on the state of the component at that later time; the
    setters it calls overwrite whole fields. *)
Inductive Handler (State : Type) : Type :=
| Finished (st : State) (effects : list Effect)
| Awaiting (st : State) (effects : list Effect)
           (resume : Result → State → State * list Effect).
Arguments Finished {State} st effects.
Arguments Awaiting {State} st effects resume.

(** The effects of a handler up to where it finishes or waits. *)
Definition emitted {State} (h : Handler State) : list Effect :=
  match h with Finished _ fx | Awaiting _ fx _ => fx end.

(** ** Form controls

    Constraint validation, which the browser runs before it fires the
    form's submit event.  A number input holding a finite value must not
    underflow [min] (whole numbers match the steps in use, 1 and 0.01); an
    infinity or NaN leaves the control empty, an error only when the control
    is required. *)
Definition numberInputValid (required : bool) (min : Z) (value : number) : bool :=
  match value with
  | Num z => min <=? z
  | Infinity _ | NaN => negb required
  end.

(** A required text input or select is in error exactly when its value is
    the empty string. *)
Definition requiredValid (value : string) : bool :=
  negb (bool_decide (value = "")).

(** The value attribute React renders for [<option value={id}>]. *)
Definition optionValue (id : Z) : string := pretty id.

(** ** pages/MemberPayment.tsx *)

Module MemberPayment.

(** [Omit<CreatePaymentData, 'member_id'>] *)
Record FormData : Type := {
  amount : number;
  method : string;
}.

Record Plan : Type := {
  name : string;
  duration : number;
  price : number;
}.

Definition membershipPlans : list Plan := [
  {| name := "Monthly"; duration := Num 30; price := Num 50000 |};
  {| name := "Quarterly"; duration := Num 90; price := Num 135000 |};
  {| name := "Semi-Annual"; duration := Num 180; price := Num 255000 |};
  {| name := "Annual"; duration := Num 365; price := Num 480000 |}
].

(** The state of the component: [user?.member?.id] from the auth context,
    the two [useApi] caches, the [isLoading] flag of [useMutation], and the
    [useState] cells of the payment modal. *)
Record State : Type := {
  user_member_id : option Z;
  membershipStatus : option MembershipStatusResponse;
  payments : option (list Payment.t);
  isProcessing : bool;
  showPaymentModal : bool;
  formData : FormData;
}.

Definition initialFormData : FormData :=
  {| amount := Num 0; method := "Credit Card" |}.

Definition setShowPaymentModal (b : bool) (st : State) : State :=
  {| user_member_id := user_member_id st; membershipStatus := membershipStatus st;
     payments := payments st; isProcessing := isProcessing st;
     showPaymentModal := b; formData := formData st |}.

Definition setFormData (d : FormData) (st : State) : State :=
  {| user_member_id := user_member_id st; membershipStatus := membershipStatus st;
     payments := payments st; isProcessing := isProcessing st;
     showPaymentModal := showPaymentModal st; formData := d |}.

(** Modelled from the spec: the hook [useMutation] (hooks/useApi) is not
    part of the sources.  Section 5: the UI disables the triggering control
    until that request resolves (success or failure).  Its [isLoading] is
    raised when [mutate] sends the request and lowered when the request
    resolves; a rejection is thrown on to the caller. *)
Definition setIsProcessing (b : bool) (st : State) : State :=
  {| user_member_id := user_member_id st; membershipStatus := membershipStatus st;
     payments := payments st; isProcessing := b;
     showPaymentModal := showPaymentModal st; formData := formData st |}.

Definition handleSubmit (st : State) : Handler State :=
  match user_member_id st with
  | None | Some 0 => Finished st [ShowError "Member information not found"]
  | Some id =>
      let data := {| CreatePaymentData.member_id := id;
                     CreatePaymentData.amount := amount (formData st);
                     CreatePaymentData.method := method (formData st) |} in
      Awaiting (setIsProcessing true st) [Post (CreatePayment data)]
        (λ result st,
           match result with
           | Resolved =>
               (setFormData {| amount := Num 0; method := "Credit Card" |}
                  (setShowPaymentModal false (setIsProcessing false st)),
                [ShowSuccess "Payment successful! 🏮"; ClearCache "/payments";
                 Refetch MyPayments; Refetch MembershipStatus])
           | Rejected error =>
               (setIsProcessing false st,
                [ShowError (messageOr error "Payment failed")])
           end)
  end.

Definition selectPlan (plan : Plan) (st : State) : State :=
  setFormData {| amount := price plan; method := method (formData st) |} st.

(** [onChange] of the amount input; [value] is [parseFloat(e.target.value)]. *)
Definition amountChanged (value : number) (st : State) : State :=
  setFormData {| amount := value; method := method (formData st) |} st.

(** [disabled={isProcessing || formData.amount <= 0}] *)
Definition submitDisabled (st : State) : bool :=
  isProcessing st || le (amount (formData st)) (Num 0).

(** The only control with constraints: [<input type="number" min="0" step="1">]. *)
Definition formValid (st : State) : bool :=
  numberInputValid false 0 (amount (formData st)).

(** A click on the submit button, or an implicit submission, which goes
    through that button: nothing happens while it is disabled or a control
    is in error; otherwise the form's [onSubmit] runs. *)
Definition submit (st : State) : Handler State :=
  if submitDisabled st then Finished st []
  else if formValid st then handleSubmit st
  else Finished st [].

(** [payments?.reduce((sum, p) => sum + Number(p.amount), 0) || 0] *)
Definition totalPaid (payments : option (list Payment.t)) : number :=
  match payments with
  | Some ps => orElse (foldl addAmount (Num 0) ps) (Num 0)
  | None => Num 0
  end.

Section ThisMonth.
Variable newDate : string → Date.
Variable now : Date.

Definition inThisMonth (p : Payment.t) : bool :=
  let date := newDate (Payment.date p) in
  strictEq (getMonth date) (getMonth now)
  && strictEq (getFullYear date) (getFullYear now).

Definition thisMonthPayments (payments : option (list Payment.t)) : list Payment.t :=
  match payments with
  | Some ps => filter inThisMonth ps
  | None => []
  end.

End ThisMonth.

End MemberPayment.

(** ** Object literals used as lookup tables

    [getStatusConfig] and [getStatusBadge] index an object literal with the
    status string.  Property access on an object finds its own properties
    first and then those of its prototype, here [Object.prototype]. *)

Inductive Icon : Type := CheckCircle | Clock | XCircle.

Record StatusStyle : Type := {
  bg : string;
  text : string;
  icon : Icon;
}.

(** The properties every object literal inherits (ECMA-262, 20.1.3 and
    B.2.2); each of them evaluates to a function or an object. *)
Definition objectPrototype : gset string := list_to_set [
  "constructor"; "hasOwnProperty"; "isPrototypeOf"; "propertyIsEnumerable";
  "toLocaleString"; "toString"; "valueOf"; "__proto__";
  "__defineGetter__"; "__defineSetter__"; "__lookupGetter__"; "__lookupSetter__"
].

(** What [styles[status]] evaluates to. *)
Inductive Property : Type :=
| Own (style : StatusStyle)
| Inherited (name : string)
| Undefined.

Definition getProperty (object : gmap string StatusStyle) (key : string) : Property :=
  match object !! key with
  | Some style => Own style
  | None => if decide (key ∈ objectPrototype) then Inherited key else Undefined
  end.

(** [a || b]: objects and functions are truthy, [undefined] is not. *)
Definition propertyOr (a b : Property) : Property :=
  match a with
  | Undefined => b
  | _ => a
  end.

(** ** pages/PaymentsManagement.tsx *)

Module PaymentsManagement.

Record State : Type := {
  payments : option (list Payment.t);
  isCreating : bool;
  showCreateModal : bool;
  statusFilter : string;
  formData : CreatePaymentData.t;
}.

Definition initialFormData : CreatePaymentData.t :=
  {| CreatePaymentData.member_id := 0;
     CreatePaymentData.amount := Num 0;
     CreatePaymentData.method := "Credit Card" |}.

Definition paymentMethods : list string :=
  ["Credit Card"; "Debit Card"; "Bank Transfer"; "KBZ Pay"; "Wave Money"; "Cash"].

Definition setShowCreateModal (b : bool) (st : State) : State :=
  {| payments := payments st; isCreating := isCreating st;
     showCreateModal := b; statusFilter := statusFilter st;
     formData := formData st |}.

Definition setFormData (d : CreatePaymentData.t) (st : State) : State :=
  {| payments := payments st; isCreating := isCreating st;
     showCreateModal := showCreateModal st; statusFilter := statusFilter st;
     formData := d |}.

(** Modelled from the spec: the [isLoading] flag of [useMutation], as for
    [MemberPayment.setIsProcessing]. *)
Definition setIsCreating (b : bool) (st : State) : State :=
  {| payments := payments st; isCreating := b;
     showCreateModal := showCreateModal st; statusFilter := statusFilter st;
     formData := formData st |}.

Definition handleSubmit (st : State) : Handler State :=
  Awaiting (setIsCreating true st) [Post (CreatePayment (formData st))]
    (λ result st,
       match result with
       | Resolved =>
           (setFormData {| CreatePaymentData.member_id := 0;
                           CreatePaymentData.amount := Num 0;
                           CreatePaymentData.method := "Credit Card" |}
              (setShowCreateModal false (setIsCreating false st)),
            [ShowSuccess "Payment recorded successfully! 🎊"; Refetch AllPayments])
       | Rejected error =>
           (setIsCreating false st,
            [ShowError (messageOr error "Failed to record payment")])
       end).

(** [onChange] of the member select; [value] is [parseInt(e.target.value)],
    the number of the chosen option. *)
Definition memberChanged (value : Z) (st : State) : State :=
  setFormData {| CreatePaymentData.member_id := value;
                 CreatePaymentData.amount := CreatePaymentData.amount (formData st);
                 CreatePaymentData.method := CreatePaymentData.method (formData st) |} st.

(** [onChange] of the amount input; [value] is [parseFloat(e.target.value)]. *)
Definition amountChanged (value : number) (st : State) : State :=
  setFormData {| CreatePaymentData.member_id := CreatePaymentData.member_id (formData st);
                 CreatePaymentData.amount := value;
                 CreatePaymentData.method := CreatePaymentData.method (formData st) |} st.

Definition methodChosen (value : string) (st : State) : State :=
  setFormData {| CreatePaymentData.member_id := CreatePaymentData.member_id (formData st);
                 CreatePaymentData.amount := CreatePaymentData.amount (formData st);
                 CreatePaymentData.method := value |} st.

(** [disabled={isCreating || formData.amount <= 0}] *)
Definition submitDisabled (st : State) : bool :=
  isCreating st || le (CreatePaymentData.amount (formData st)) (Num 0).

(** [<select required value={formData.member_id}>], whose first option is
    [<option value={0}>Select a member...</option>], and
    [<input type="number" required min="0" step="1">]. *)
Definition formValid (st : State) : bool :=
  requiredValid (optionValue (CreatePaymentData.member_id (formData st)))
  && numberInputValid true 0 (CreatePaymentData.amount (formData st)).

(** A click on the submit button, or an implicit submission. *)
Definition submit (st : State) : Handler State :=
  if submitDisabled st then Finished st []
  else if formValid st then handleSubmit st
  else Finished st [].

Definition getFilteredPayments (st : State) : list Payment.t :=
  match payments st with
  | None => []
  | Some ps =>
      if decide (statusFilter st = "all") then ps
      else filter (λ p, Payment.status p = statusFilter st) ps
  end.

(** [payments?.reduce((sum, p) => sum + Number(p.amount), 0) || 0] *)
Definition totalRevenue (payments : option (list Payment.t)) : number :=
  match payments with
  | Some ps => orElse (foldl addAmount (Num 0) ps) (Num 0)
  | None => Num 0
  end.

(** [payments?.filter(...).length || 0]: the fallback serves the list that
    is not loaded; a length of 0 is 0 either way. *)
Definition completedCount (payments : option (list Payment.t)) : nat :=
  match payments with
  | Some ps => length (filter (λ p, Payment.status p = "completed") ps)
  | None => 0
  end.

Definition pendingCount (payments : option (list Payment.t)) : nat :=
  match payments with
  | Some ps => length (filter (λ p, Payment.status p = "pending") ps)
  | None => 0
  end.

Definition completed : StatusStyle :=
  {| bg := "from-green-100 to-emerald-100"; text := "text-green-700"; icon := CheckCircle |}.
Definition pending : StatusStyle :=
  {| bg := "from-yellow-100 to-amber-100"; text := "text-yellow-700"; icon := Clock |}.
Definition failed : StatusStyle :=
  {| bg := "from-red-100 to-orange-100"; text := "text-red-700"; icon := XCircle |}.

Definition configs : gmap string StatusStyle :=
  {[ "completed" := completed; "pending" := pending; "failed" := failed ]}.

Definition getStatusConfig (status : string) : Property :=
  propertyOr (getProperty configs status) (Own completed).

End PaymentsManagement.

(** ** pages/MembershipsManagement.tsx *)

Module MembershipsManagement.

Record MembershipType : Type := {
  label : string;
  duration : number;
  fee : number;
}.

Definition membershipTypes : list MembershipType := [
  {| label := "Monthly"; duration := Num 30; fee := Num 50000 |};
  {| label := "Quarterly (3 months)"; duration := Num 90; fee := Num 140000 |};
  {| label := "Semi-Annual (6 months)"; duration := Num 180; fee := Num 275000 |};
  {| label := "Annual"; duration := Num 365; fee := Num 550000 |}
].

Record State : Type := {
  memberships : option (list Membership.t);
  isCreating : bool;
  showCreateModal : bool;
  createFormData : CreateMembershipData.t;
}.

Definition initialCreateFormData : CreateMembershipData.t :=
  {| CreateMembershipData.member_id := 0;
     CreateMembershipData.type := "";
     CreateMembershipData.duration := Num 30;
     CreateMembershipData.fee := Num 0 |}.

Definition setShowCreateModal (b : bool) (st : State) : State :=
  {| memberships := memberships st; isCreating := isCreating st;
     showCreateModal := b; createFormData := createFormData st |}.

Definition setCreateFormData (d : CreateMembershipData.t) (st : State) : State :=
  {| memberships := memberships st; isCreating := isCreating st;
     showCreateModal := showCreateModal st; createFormData := d |}.

(** Modelled from the spec: the [isLoading] flag of [useMutation], as for
    [MemberPayment.setIsProcessing]. *)
Definition setIsCreating (b : bool) (st : State) : State :=
  {| memberships := memberships st; isCreating := b;
     showCreateModal := showCreateModal st; createFormData := createFormData st |}.

Definition handleCreateSubmit (st : State) : Handler State :=
  Awaiting (setIsCreating true st) [Post (CreateMembership (createFormData st))]
    (λ result st,
       match result with
       | Resolved =>
           (setCreateFormData {| CreateMembershipData.member_id := 0;
                                 CreateMembershipData.type := "";
                                 CreateMembershipData.duration := Num 30;
                                 CreateMembershipData.fee := Num 0 |}
              (setShowCreateModal false (setIsCreating false st)),
            [ShowSuccess "Membership created successfully! 🎊"; Refetch AllMemberships])
       | Rejected error =>
           (setIsCreating false st,
            [ShowError (messageOr error "Failed to create membership")])
       end).

Definition selectMembershipType (type : MembershipType) (st : State) : State :=
  setCreateFormData
    {| CreateMembershipData.member_id := CreateMembershipData.member_id (createFormData st);
       CreateMembershipData.type := label type;
       CreateMembershipData.duration := duration type;
       CreateMembershipData.fee := fee type |} st.

(** [onChange] of the three inputs under the plan buttons; the values are
    [e.target.value], [parseInt(e.target.value)] and
    [parseFloat(e.target.value)]. *)
Definition typeChanged (value : string) (st : State) : State :=
  setCreateFormData
    {| CreateMembershipData.member_id := CreateMembershipData.member_id (createFormData st);
       CreateMembershipData.type := value;
       CreateMembershipData.duration := CreateMembershipData.duration (createFormData st);
       CreateMembershipData.fee := CreateMembershipData.fee (createFormData st) |} st.

Definition durationChanged (value : number) (st : State) : State :=
  setCreateFormData
    {| CreateMembershipData.member_id := CreateMembershipData.member_id (createFormData st);
       CreateMembershipData.type := CreateMembershipData.type (createFormData st);
       CreateMembershipData.duration := value;
       CreateMembershipData.fee := CreateMembershipData.fee (createFormData st) |} st.

Definition feeChanged (value : number) (st : State) : State :=
  setCreateFormData
    {| CreateMembershipData.member_id := CreateMembershipData.member_id (createFormData st);
       CreateMembershipData.type := CreateMembershipData.type (createFormData st);
       CreateMembershipData.duration := CreateMembershipData.duration (createFormData st);
       CreateMembershipData.fee := value |} st.

(** [disabled={isCreating}] *)
Definition submitDisabled (st : State) : bool := isCreating st.

(** The member select and the type name are required; the duration is a
    required number with [min="1"], the fee one with [min="0"]. *)
Definition formValid (st : State) : bool :=
  requiredValid (optionValue (CreateMembershipData.member_id (createFormData st)))
  && requiredValid (CreateMembershipData.type (createFormData st))
  && numberInputValid true 1 (CreateMembershipData.duration (createFormData st))
  && numberInputValid true 0 (CreateMembershipData.fee (createFormData st)).

Definition submit (st : State) : Handler State :=
  if submitDisabled st then Finished st []
  else if formValid st then handleCreateSubmit st
  else Finished st [].

Definition active : StatusStyle :=
  {| bg := "from-green-100 to-emerald-100"; text := "text-green-700"; icon := CheckCircle |}.
Definition expired : StatusStyle :=
  {| bg := "from-red-100 to-orange-100"; text := "text-red-700"; icon := XCircle |}.
Definition cancelled : StatusStyle :=
  {| bg := "from-gray-100 to-gray-200"; text := "text-gray-700"; icon := XCircle |}.

Definition styles : gmap string StatusStyle :=
  {[ "active" := active; "expired" := expired; "cancelled" := cancelled ]}.

Definition getStatusBadge (status : string) : Property :=
  propertyOr (getProperty styles status) (Own active).

(** [memberships?.filter(...).length || 0]: the fallback serves the list
    that is not loaded; a length of 0 is 0 either way. *)
Definition activeCount (memberships : option (list Membership.t)) : nat :=
  match memberships with
  | Some ms => length (filter (λ m, Membership.status m = "active") ms)
  | None => 0
  end.

Definition expiredCount (memberships : option (list Membership.t)) : nat :=
  match memberships with
  | Some ms => length (filter (λ m, Membership.status m = "expired") ms)
  | None => 0
  end.

End MembershipsManagement.

(** ** Calendar dates and the end of a membership *)

Module Calendar.

Record date : Type := {
  year : Z;
  month : Z;
  day : Z;
}.

Definition isLeapYear (y : Z) : bool :=
  (y mod 4 =? 0) && (negb (y mod 100 =? 0) || (y mod 400 =? 0)).

Definition daysInMonth (y m : Z) : Z :=
  if m =? 2 then (if isLeapYear y then 29 else 28)
  else if (m =? 4) || (m =? 6) || (m =? 9) || (m =? 11) then 30
  else 31.

Definition valid (d : date) : Prop :=
  1 ≤ month d ≤ 12 ∧ 1 ≤ day d ≤ daysInMonth (year d) (month d).

(** The day after [d]. *)
Definition nextDay (d : date) : date :=
  if day d <? daysInMonth (year d) (month d)
  then {| year := year d; month := month d; day := day d + 1 |}
  else if month d <? 12
  then {| year := year d; month := month d + 1; day := 1 |}
  else {| year := year d + 1; month := 1; day := 1 |}.

(** Day-count addition: [n] times the next day. *)
Definition addDays (d : date) (n : Z) : date :=
  Nat.iter (Z.to_nat n) nextDay d.

(** The number of a day, counted through the proleptic Gregorian calendar
    (1 is 0001-01-01). *)
Definition daysBeforeYear (y : Z) : Z :=
  365 * (y - 1) + (y - 1) / 4 - (y - 1) / 100 + (y - 1) / 400.

Definition daysBeforeMonth (y m : Z) : Z :=
  nth (Z.to_nat (m - 1)) [0; 31; 59; 90; 120; 151; 181; 212; 243; 273; 304; 334] 0
  + (if isLeapYear y && (2 <? m) then 1 else 0).

Definition dayNumber (d : date) : Z :=
  daysBeforeYear (year d) + daysBeforeMonth (year d) (month d) + day d.

(** Modelled from the spec: memberships are created by the backend, which is
    not part of the sources; the pages post member_id, type, duration and
    fee and read start_date and end_date back.  Section 3:
    end_date == start_date + duration days at creation; section 8: 365-day
    addition, not calendar-year addition. *)
Definition endDateAtCreation (start_date : date) (duration : Z) : date :=
  addDays start_date duration.

End Calendar.

(** ** Runs of a page

    A mounted page is the state of its component together with the handlers
    that stopped at their [await], oldest first.  An event of a run is a
    call of one of the page's handlers or the answer to the oldest
    outstanding request. *)

Record Page (State : Type) : Type := {
  current : State;
  waiting : list (Result → State → State * list Effect);
}.
Arguments current {State} _.
Arguments waiting {State} _.

(** A synchronous state update. *)
Definition update {State} (f : State → State) (pg : Page State)
  : Page State * list Effect :=
  ({| current := f (current pg); waiting := waiting pg |}, []).

(** A handler is called: it runs up to its end or to its [await]. *)
Definition called {State} (handler : State → Handler State) (pg : Page State)
  : Page State * list Effect :=
  match handler (current pg) with
  | Finished st fx => ({| current := st; waiting := waiting pg |}, fx)
  | Awaiting st fx resume =>
      ({| current := st; waiting := waiting pg ++ [resume] |}, fx)
  end.

(** The oldest outstanding request is answered: the rest of its handler
    runs on the state of that moment. *)
Definition answer {State} (result : Result) (pg : Page State)
  : Page State * list Effect :=
  match waiting pg with
  | [] => (pg, [])
  | resume :: rest =>
      let '(st, fx) := resume result (current pg) in
      ({| current := st; waiting := rest |}, fx)
  end.

Fixpoint run {State Event} (step : Page State → Event → Page State * list Effect)
  (pg : Page State) (events : list Event) : Page State * list Effect :=
  match events with
  | [] => (pg, [])
  | event :: events =>
      let '(pg', fx) := step pg event in
      let '(pg'', fx') := run step pg' events in
      (pg'', fx ++ fx')
  end.

Definition isPost (e : Effect) : bool :=
  match e with Post _ => true | _ => false end.

(** The handlers bound in the JSX of [MemberPayment]: the "Make Payment"
    button, the modal's close and Cancel, the plan buttons, the amount
    input and the form's submission. *)
Module MemberPaymentRun.

Inductive Event : Type :=
| OpenModal
| CloseModal
| SelectPlan (plan : MemberPayment.Plan)
| ChangeAmount (value : number)
| Submit
| Answer (result : Result).

Definition isAnswer (e : Event) : bool :=
  match e with Answer _ => true | _ => false end.

Definition step (pg : Page MemberPayment.State) (event : Event)
  : Page MemberPayment.State * list Effect :=
  match event with
  | OpenModal => update (MemberPayment.setShowPaymentModal true) pg
  | CloseModal => update (MemberPayment.setShowPaymentModal false) pg
  | SelectPlan plan => update (MemberPayment.selectPlan plan) pg
  | ChangeAmount value => update (MemberPayment.amountChanged value) pg
  | Submit => called MemberPayment.submit pg
  | Answer result => answer result pg
  end.

(** The page as it mounts for a session whose member number is [id]. *)
Definition mounted (id : option Z) : Page MemberPayment.State :=
  {| current := {| MemberPayment.user_member_id := id;
                   MemberPayment.membershipStatus := None;
                   MemberPayment.payments := None;
                   MemberPayment.isProcessing := false;
                   MemberPayment.showPaymentModal := false;
                   MemberPayment.formData := MemberPayment.initialFormData |};
     waiting := [] |}.

End MemberPaymentRun.

(** The handlers bound in the JSX of [PaymentsManagement]: the "Record
    Payment" button, the modal's close and Cancel, the member select, the
    amount input, the payment-method buttons, the status filter buttons
    and the form's submission. *)
Module PaymentsManagementRun.

Inductive Event : Type :=
| OpenModal
| CloseModal
| ChangeMember (value : Z)
| ChangeAmount (value : number)
| ChooseMethod (value : string)
| SetStatusFilter (value : string)
| Submit
| Answer (result : Result).

Definition isAnswer (e : Event) : bool :=
  match e with Answer _ => true | _ => false end.

Definition setStatusFilter (value : string) (st : PaymentsManagement.State)
  : PaymentsManagement.State :=
  {| PaymentsManagement.payments := PaymentsManagement.payments st;
     PaymentsManagement.isCreating := PaymentsManagement.isCreating st;
     PaymentsManagement.showCreateModal := PaymentsManagement.showCreateModal st;
     PaymentsManagement.statusFilter := value;
     PaymentsManagement.formData := PaymentsManagement.formData st |}.

Definition step (pg : Page PaymentsManagement.State) (event : Event)
  : Page PaymentsManagement.State * list Effect :=
  match event with
  | OpenModal => update (PaymentsManagement.setShowCreateModal true) pg
  | CloseModal => update (PaymentsManagement.setShowCreateModal false) pg
  | ChangeMember value => update (PaymentsManagement.memberChanged value) pg
  | ChangeAmount value => update (PaymentsManagement.amountChanged value) pg
  | ChooseMethod value => update (PaymentsManagement.methodChosen value) pg
  | SetStatusFilter value => update (setStatusFilter value) pg
  | Submit => called PaymentsManagement.submit pg
  | Answer result => answer result pg
  end.

(** The method buttons are rendered from [paymentMethods], the filter
    buttons from [filters]. *)
Definition offered (event : Event) : Prop :=
  match event with
  | ChooseMethod value => value ∈ PaymentsManagement.paymentMethods
  | SetStatusFilter value => value ∈ ["all"; "completed"; "pending"; "failed"]
  | _ => True
  end.

Definition mounted : Page PaymentsManagement.State :=
  {| current := {| PaymentsManagement.payments := None;
                   PaymentsManagement.isCreating := false;
                   PaymentsManagement.showCreateModal := false;
                   PaymentsManagement.statusFilter := "all";
                   PaymentsManagement.formData := PaymentsManagement.initialFormData |};
     waiting := [] |}.

End PaymentsManagementRun.

(** The handlers bound in the JSX of the membership-creation modal of
    [MembershipsManagement]: the "Create Membership" button, the modal's
    close and Cancel, the member select, the type cards, the three inputs
    and the form's submission. *)
Module MembershipsManagementRun.

(** [onChange] of the member select; [value] is [parseInt(e.target.value)]. *)
Definition memberChanged (value : Z) (st : MembershipsManagement.State)
  : MembershipsManagement.State :=
  MembershipsManagement.setCreateFormData
    {| CreateMembershipData.member_id := value;
       CreateMembershipData.type :=
         CreateMembershipData.type (MembershipsManagement.createFormData st);
       CreateMembershipData.duration :=
         CreateMembershipData.duration (MembershipsManagement.createFormData st);
       CreateMembershipData.fee :=
         CreateMembershipData.fee (MembershipsManagement.createFormData st) |} st.

Inductive Event : Type :=
| OpenModal
| CloseModal
| ChangeMember (value : Z)
| SelectType (type : MembershipsManagement.MembershipType)
| ChangeType (value : string)
| ChangeDuration (value : number)
| ChangeFee (value : number)
| Submit
| Answer (result : Result).

Definition isAnswer (e : Event) : bool :=
  match e with Answer _ => true | _ => false end.

Definition step (pg : Page MembershipsManagement.State) (event : Event)
  : Page MembershipsManagement.State * list Effect :=
  match event with
  | OpenModal => update (MembershipsManagement.setShowCreateModal true) pg
  | CloseModal => update (MembershipsManagement.setShowCreateModal false) pg
  | ChangeMember value => update (memberChanged value) pg
  | SelectType type => update (MembershipsManagement.selectMembershipType type) pg
  | ChangeType value => update (MembershipsManagement.typeChanged value) pg
  | ChangeDuration value => update (MembershipsManagement.durationChanged value) pg
  | ChangeFee value => update (MembershipsManagement.feeChanged value) pg
  | Submit => called MembershipsManagement.submit pg
  | Answer result => answer result pg
  end.

Definition mounted : Page MembershipsManagement.State :=
  {| current := {| MembershipsManagement.memberships := None;
                   MembershipsManagement.isCreating := false;
                   MembershipsManagement.showCreateModal := false;
                   MembershipsManagement.createFormData :=
                     MembershipsManagement.initialCreateFormData |};
     waiting := [] |}.

End MembershipsManagementRun.

(** ** Receipts

    [handleGenerateReceipt] of [PaymentsManagement] and [handleViewReceipt]
    of [MemberPayment], with the two [useState] cells they write and the
    row of the receipt modal that shows the linked membership.  The request
    goes out through [paymentsApi.generateReceipt] directly, without a
    loading flag; the handler does nothing else before its [await]. *)

Module Receipts.

Record Receipt : Type := {
  receipt_number : string;
  member_name : string;
  date : string;
  amount : number;
  method : string;
  status : string;
  membership_type : option string;
}.

Record State : Type := {
  showReceiptModal : bool;
  selectedReceipt : option Receipt;
}.

Definition initial : State :=
  {| showReceiptModal := false; selectedReceipt := None |}.

Definition setSelectedReceipt (receipt : option Receipt) (st : State) : State :=
  {| showReceiptModal := showReceiptModal st; selectedReceipt := receipt |}.

Definition setShowReceiptModal (b : bool) (st : State) : State :=
  {| showReceiptModal := b; selectedReceipt := selectedReceipt st |}.

(** The answer to the request: a receipt object, or a rejection. *)
Inductive Answer : Type :=
| Generated (receipt : Receipt)
| Failed (error : ApiError).

(** A handler that has sent its request: the payment the receipt is asked
    for, and the rest of the handler. *)
Record Sent : Type := {
  paymentId : Z;
  resume : Answer → State → State * list Effect;
}.

(** pages/PaymentsManagement.tsx *)
Definition handleGenerateReceipt (id : Z) : Sent :=
  {| paymentId := id;
     resume := λ answer st,
       match answer with
       | Generated receipt =>
           (setShowReceiptModal true (setSelectedReceipt (Some receipt) st),
            [ShowSuccess "Receipt generated successfully! 🧾"])
       | Failed _ => (st, [ShowError "Failed to generate receipt"])
       end |}.

(** pages/MemberPayment.tsx *)
Definition handleViewReceipt (id : Z) : Sent :=
  {| paymentId := id;
     resume := λ answer st,
       match answer with
       | Generated receipt =>
           (setShowReceiptModal true (setSelectedReceipt (Some receipt) st),
            [ShowSuccess "Receipt generated! 🧾"])
       | Failed _ => (st, [ShowError "Failed to generate receipt"])
       end |}.

(** What happens to the two cells: a receipt button is pressed and, at some
    later time, answered; or the modal is closed. *)
Inductive Event : Type :=
| Answered (sent : Sent) (answer : Answer)
| Close.

Definition step (st : State) (event : Event) : State * list Effect :=
  match event with
  | Answered sent answer => resume sent answer st
  | Close => (setShowReceiptModal false st, [])
  end.

Fixpoint run (st : State) (events : list Event) : State * list Effect :=
  match events with
  | [] => (st, [])
  | event :: events =>
      let '(st', fx) := step st event in
      let '(st'', fx') := run st' events in
      (st'', fx ++ fx')
  end.

(** An event of one of the two pages. *)
Definition ofPage (event : Event) : Prop :=
  match event with
  | Answered sent _ =>
      sent = handleGenerateReceipt (paymentId sent)
      ∨ sent = handleViewReceipt (paymentId sent)
  | Close => True
  end.

(** The receipt of an event, if the event brings one. *)
Definition generated (event : Event) : option Receipt :=
  match event with
  | Answered _ (Generated receipt) => Some receipt
  | _ => None
  end.

(** [{selectedReceipt.membership_type &&
      selectedReceipt.membership_type !== 'N/A' && (...)}] in
    [PaymentsManagement]; a missing type and the empty string are falsy. *)
Definition adminShowsMembership (receipt : Receipt) : bool :=
  match membership_type receipt with
  | Some type => negb (bool_decide (type = "")) && negb (bool_decide (type = "N/A"))
  | None => false
  end.

(** [{selectedReceipt.membership_type !== 'N/A' && (...)}] in
    [MemberPayment]; a missing type is not the string 'N/A'. *)
Definition memberShowsPlan (receipt : Receipt) : bool :=
  match membership_type receipt with
  | Some type => negb (bool_decide (type = "N/A"))
  | None => true
  end.

End Receipts.

(** ** pages/Register.tsx and pages/Login.tsx

    The registration form keeps its fields in one object that
    [handleChange] writes under the name of the input that changed, so the
    object is a map from field names to the strings typed.  The two submit
    handlers write to [localStorage] and navigate; both are part of the
    state here. *)

Module Register.

Definition initialFormData : gmap string string :=
  {[ "username" := ""; "email" := ""; "password" := ""; "role" := "member" ]}.

(** [setFormData({ ...formData, [e.target.name]: e.target.value })] *)
Definition handleChange (name value : string) (formData : gmap string string)
  : gmap string string :=
  <[name := value]> formData.

(** [onClick={() => setFormData({ ...formData, role: role.value })}] *)
Definition roleClicked (role : string) (formData : gmap string string)
  : gmap string string :=
  <["role" := role]> formData.

(** The inputs the form renders for a role: the three common ones and the
    block under [formData.role === ...]. *)
Definition rendered (role : string) : list string :=
  ["username"; "email"; "password"]
  ++ (if decide (role = "member") then ["name"; "age"; "gender"; "phone"]
      else if decide (role = "trainer") then ["name"; "specialization"]
      else if decide (role = "admin") then ["name"]
      else []).

Inductive Event : Type :=
| Change (name value : string)
| Role (role : string).

Definition step (formData : gmap string string) (event : Event) : gmap string string :=
  match event with
  | Change name value => handleChange name value formData
  | Role role => roleClicked role formData
  end.

(** What an event writes under [name], if it writes there. *)
Definition written (name : string) (event : Event) : option string :=
  match event with
  | Change name' value => if decide (name' = name) then Some value else None
  | Role role => if decide ("role" = name) then Some role else None
  end.

Record State : Type := {
  formData : gmap string string;
  isLoading : bool;
  localStorage : gmap string string;
  location : string;
}.

Definition setIsLoading (b : bool) (st : State) : State :=
  {| formData := formData st; isLoading := b;
     localStorage := localStorage st; location := location st |}.

(** [localStorage.setItem(key, value)] *)
Definition setItem (key value : string) (st : State) : State :=
  {| formData := formData st; isLoading := isLoading st;
     localStorage := <[key := value]> (localStorage st); location := location st |}.

Definition navigate (path : string) (st : State) : State :=
  {| formData := formData st; isLoading := isLoading st;
     localStorage := localStorage st; location := path |}.

(** [AuthResponse], its user held as [JSON.stringify(response.user)]. *)
Record AuthResponse : Type := {
  token : string;
  user : string;
}.

Inductive Answer : Type :=
| Registered (response : AuthResponse)
| Refused (error : ApiError).

(** A handler stopped at [await authApi.register(formData)]: the state it
    left, the data it sent, and its rest. *)
Record Sent : Type := {
  atAwait : State;
  data : gmap string string;
  resume : Answer → State → State * list Effect;
}.

Definition handleSubmit (st : State) : Sent :=
  {| atAwait := setIsLoading true st;
     data := formData st;
     resume := λ answer st,
       match answer with
       | Registered response =>
           (setIsLoading false
              (navigate "/dashboard"
                 (setItem "user" (user response)
                    (setItem "auth_token" (token response) st))),
            [ShowSuccess "Welcome to FitFlow Gym! 🎊"])
       | Refused error =>
           (setIsLoading false st,
            [ShowError (messageOr error "Registration failed. Please try again.")])
       end |}.

End Register.

Module Login.

Record State : Type := {
  email : string;
  password : string;
  isLoading : bool;
  location : string;
}.

Definition setIsLoading (b : bool) (st : State) : State :=
  {| email := email st; password := password st; isLoading := b;
     location := location st |}.

Definition navigate (path : string) (st : State) : State :=
  {| email := email st; password := password st; isLoading := isLoading st;
     location := path |}.

Inductive Answer : Type :=
| LoggedIn
| Refused (error : ApiError).

(** A handler stopped at [await login(email, password)]. *)
Record Sent : Type := {
  atAwait : State;
  credentials : string * string;
  resume : Answer → State → State * list Effect;
}.

Definition handleSubmit (st : State) : Sent :=
  {| atAwait := setIsLoading true st;
     credentials := (email st, password st);
     resume := λ answer st,
       match answer with
       | LoggedIn =>
           (setIsLoading false (navigate "/dashboard" st),
            [ShowSuccess "Welcome back! 🎊"])
       | Refused error =>
           (setIsLoading false st,
            [ShowError (messageOr error "Invalid email or password")])
       end |}.

End Login.

(** ** Loading the dashboard

    [loadData] of [AdminDashboard] awaits [Promise.all] of four requests,
    which resolves when all four do and rejects when one of them does; the
    setters run after it, the [catch] only logs, and [finally] lowers
    [isLoading]. *)

Module AdminDashboardData.

(** The fields of [Member] and [Attendance] (types/index.ts) that the
    dashboard reads. *)
Record Member : Type := {
  member_id : Z;
  member_name : string;
}.

Record Attendance : Type := {
  attendance_id : Z;
  attendance_date : string;
}.

Record State : Type := {
  members : list Member;
  attendance : list Attendance;
  payments : list Payment.t;
  memberships : list Membership.t;
  isLoading : bool;
}.

(** The [useState] initial values. *)
Definition initial : State :=
  {| members := []; attendance := []; payments := []; memberships := [];
     isLoading := true |}.

(** How one of the four requests ends. *)
Inductive Fetched (A : Type) : Type :=
| Loaded (data : A)
| NotLoaded.
Arguments Loaded {A} data.
Arguments NotLoaded {A}.

Definition loadData
  (membersData : Fetched (list Member)) (attendanceData : Fetched (list Attendance))
  (paymentsData : Fetched (list Payment.t)) (membershipsData : Fetched (list Membership.t))
  (st : State) : State :=
  match membersData, attendanceData, paymentsData, membershipsData with
  | Loaded ms, Loaded att, Loaded ps, Loaded mss =>
      {| members := ms; attendance := att; payments := ps; memberships := mss;
         isLoading := false |}
  | _, _, _, _ =>
      {| members := members st; attendance := attendance st; payments := payments st;
         memberships := memberships st; isLoading := false |}
  end.

Section Stats.
Variable newDate : string → Date.
Variable now : Date.
(** [new Date(a.date).toDateString()] and [new Date().toDateString()] *)
Variable toDateString : string → string.
Variable today : string.

Definition todayAttendance (st : State) : list Attendance :=
  filter (λ a, toDateString (attendance_date a) = today) (attendance st).

(** The values of the four stat cards. *)
Definition stats (st : State) : nat * nat * number * nat :=
  (length (members st),
   length (todayAttendance st),
   AdminDashboard.thisMonthRevenue newDate now (payments st),
   AdminDashboard.activeMemberships (memberships st)).

(** [members.slice(0, 5)] and [payments.slice(0, 5)] *)
Definition recentMembers (st : State) : list Member := take 5 (members st).
Definition recentPayments (st : State) : list Payment.t := take 5 (payments st).

End Stats.

End AdminDashboardData.

(** ** Editing and deleting a membership

    [openEditModal], [openDeleteModal], [handleEditSubmit] and
    [handleDelete] of [MembershipsManagement], with the [useState] cells
    they share. *)

Module MembershipsEdit.

(** [UpdateMembershipFormData] *)
Record UpdateMembershipFormData : Type := {
  status : string;
  end_date : option string;
}.

Record State : Type := {
  selectedMembership : option Membership.t;
  showEditModal : bool;
  showDeleteModal : bool;
  editFormData : UpdateMembershipFormData;
}.

Definition initial : State :=
  {| selectedMembership := None; showEditModal := false; showDeleteModal := false;
     editFormData := {| status := "active"; end_date := None |} |}.

Definition setSelectedMembership (m : option Membership.t) (st : State) : State :=
  {| selectedMembership := m; showEditModal := showEditModal st;
     showDeleteModal := showDeleteModal st; editFormData := editFormData st |}.

Definition setShowEditModal (b : bool) (st : State) : State :=
  {| selectedMembership := selectedMembership st; showEditModal := b;
     showDeleteModal := showDeleteModal st; editFormData := editFormData st |}.

Definition setShowDeleteModal (b : bool) (st : State) : State :=
  {| selectedMembership := selectedMembership st; showEditModal := showEditModal st;
     showDeleteModal := b; editFormData := editFormData st |}.

Definition setEditFormData (d : UpdateMembershipFormData) (st : State) : State :=
  {| selectedMembership := selectedMembership st; showEditModal := showEditModal st;
     showDeleteModal := showDeleteModal st; editFormData := d |}.

Definition openEditModal (membership : Membership.t) (st : State) : State :=
  setShowEditModal true
    (setEditFormData {| status := Membership.status membership;
                        end_date := Some (Membership.end_date membership) |}
       (setSelectedMembership (Some membership) st)).

Definition openDeleteModal (membership : Membership.t) (st : State) : State :=
  setShowDeleteModal true (setSelectedMembership (Some membership) st).

(** [onChange] of the status select and of the end-date input. *)
Definition statusChanged (value : string) (st : State) : State :=
  setEditFormData {| status := value; end_date := end_date (editFormData st) |} st.

Definition endDateChanged (value : string) (st : State) : State :=
  setEditFormData {| status := status (editFormData st); end_date := Some value |} st.

(** The requests of the two handlers: [updateMembership({ id, ...editFormData })]
    and [deleteMembership(id)]. *)
Inductive Request : Type :=
| UpdateMembership (id : Z) (data : UpdateMembershipFormData)
| DeleteMembership (id : Z).

(** A handler that returned at once, or one stopped at its [await]. *)
Inductive Call : Type :=
| Returned
| Sent (request : Request) (resume : Result → State → State * list Effect).

Definition handleEditSubmit (st : State) : Call :=
  match selectedMembership st with
  | None => Returned
  | Some membership =>
      Sent (UpdateMembership (Membership.id membership) (editFormData st))
        (λ result st,
           match result with
           | Resolved =>
               (setSelectedMembership None (setShowEditModal false st),
                [ShowSuccess "Membership updated successfully! ✅"; Refetch AllMemberships])
           | Rejected error =>
               (st, [ShowError (messageOr error "Failed to update membership")])
           end)
  end.

Definition handleDelete (st : State) : Call :=
  match selectedMembership st with
  | None => Returned
  | Some membership =>
      Sent (DeleteMembership (Membership.id membership))
        (λ result st,
           match result with
           | Resolved =>
               (setSelectedMembership None (setShowDeleteModal false st),
                [ShowSuccess "Membership deleted successfully"; Refetch AllMemberships])
           | Rejected error =>
               (st, [ShowError (messageOr error "Failed to delete membership")])
           end)
  end.

(** Edits of the open edit form. *)
Inductive Edit : Type :=
| Status (value : string)
| EndDate (value : string).

Definition edit (st : State) (e : Edit) : State :=
  match e with
  | Status value => statusChanged value st
  | EndDate value => endDateChanged value st
  end.

Definition request (c : Call) : option Request :=
  match c with Returned => None | Sent r _ => Some r end.

(** The state once the request of [c] is answered in state [st]. *)
Definition settled (c : Call) (result : Result) (st : State) : State :=
  match c with Returned => st | Sent _ resume => (resume result st).1 end.

End MembershipsEdit.

(** ** Highlighted buttons

    The plan cards of the two forms carry a highlight:
    [formData.amount === plan.price] in [MemberPayment] and
    [createFormData.type === type.label] in [MembershipsManagement]. *)

Definition planHighlighted (plan : MemberPayment.Plan) (st : MemberPayment.State) : bool :=
  strictEq (MemberPayment.amount (MemberPayment.formData st)) (MemberPayment.price plan).

Definition typeHighlighted (type : MembershipsManagement.MembershipType)
  (st : MembershipsManagement.State) : bool :=
  bool_decide (CreateMembershipData.type (MembershipsManagement.createFormData st)
               = MembershipsManagement.label type).

(** ** Vocabulary of the statements *)

(** The exact sum of a list of whole-Kyat amounts, and the sum of their
    magnitudes. *)
Definition sumKyat (kyat : list Z) : Z := foldr Z.add 0 kyat.

Definition sumMagnitudes (kyat : list Z) : Z :=
  foldr (λ k total, Z.abs k + total) 0 kyat.

(** [d] falls in the month and year of [now]. *)
Definition sameMonthAndYear (d now : Date) : Prop :=
  ∃ y m, d = ValidDate y m ∧ now = ValidDate y m.

(** A payment of [amount] Kyat, for examples. *)
Definition paymentOf (id : Z) (amount : number) (date status : string) : Payment.t :=
  {| Payment.id := id; Payment.amount := amount; Payment.method := "Cash";
     Payment.date := date; Payment.status := status |}.

Definition membershipOf (id : Z) (status : string) : Membership.t :=
  {| Membership.id := id; Membership.type := "Monthly";
     Membership.duration := Num 30; Membership.fee := Num 50000;
     Membership.start_date := "2024-01-01"; Membership.end_date := "2024-01-31";
     Membership.status := status |}.

(** The same payment under another status. *)
Definition withStatus (status : string) (p : Payment.t) : Payment.t :=
  {| Payment.id := Payment.id p; Payment.amount := Payment.amount p;
     Payment.method := Payment.method p; Payment.date := Payment.date p;
     Payment.status := status |}.

(** What the rest of a handler does once its request is answered with
    [result], the component then being in state [st]. *)
Definition answered {State} (h : Handler State) (result : Result) (st : State)
  : State * list Effect :=
  match h with
  | Awaiting _ _ resume => resume result st
  | Finished _ _ => (st, [])
  end.

(** The two catalogs as mappings from plan label to fee. *)
Definition adminFees : gmap string number :=
  list_to_map ((λ t, (MembershipsManagement.label t, MembershipsManagement.fee t))
               <$> MembershipsManagement.membershipTypes).

Definition memberFees : gmap string number :=
  list_to_map ((λ p, (MemberPayment.name p, MemberPayment.price p))
               <$> MemberPayment.membershipPlans).

(** ** Vocabulary of the further statements *)

(** A run of the member's page keeps this: the session's member number,
    the method of the form, and at most one handler waiting, which is the
    rest of a [handleSubmit] and goes with a raised loading flag. *)
Definition memberSettled (id : option Z) (pg : Page MemberPayment.State) : Prop :=
  MemberPayment.user_member_id (current pg) = id
  ∧ MemberPayment.method (MemberPayment.formData (current pg)) = "Credit Card"
  ∧ ((waiting pg = [] ∧ MemberPayment.isProcessing (current pg) = false)
     ∨ (∃ resume st0 st1 fx,
          waiting pg = [resume]
          ∧ MemberPayment.handleSubmit st0 = Awaiting st1 fx resume
          ∧ MemberPayment.isProcessing (current pg) = true)).

(** The member a [ChangeMember] event selects. *)
Definition chosenMember (event : PaymentsManagementRun.Event) : option Z :=
  match event with
  | PaymentsManagementRun.ChangeMember value => Some value
  | _ => None
  end.

(** A run of the admin's page keeps this: a member number that is 0 or
    one of [ids], a method from [paymentMethods], and at most one handler
    waiting. *)
Definition adminSettled (ids : list Z) (pg : Page PaymentsManagement.State) : Prop :=
  CreatePaymentData.member_id (PaymentsManagement.formData (current pg)) ∈ 0 :: ids
  ∧ CreatePaymentData.method (PaymentsManagement.formData (current pg))
    ∈ PaymentsManagement.paymentMethods
  ∧ ((waiting pg = [] ∧ PaymentsManagement.isCreating (current pg) = false)
     ∨ (∃ resume st0 st1 fx,
          waiting pg = [resume]
          ∧ PaymentsManagement.handleSubmit st0 = Awaiting st1 fx resume
          ∧ PaymentsManagement.isCreating (current pg) = true)).

(** A run of the membership-creation form keeps this: at most one handler
    waiting, which is the rest of a [handleCreateSubmit] and goes with a
    raised loading flag. *)
Definition membershipSettled (pg : Page MembershipsManagement.State) : Prop :=
  (waiting pg = [] ∧ MembershipsManagement.isCreating (current pg) = false)
  ∨ (∃ resume st0 st1 fx,
       waiting pg = [resume]
       ∧ MembershipsManagement.handleCreateSubmit st0 = Awaiting st1 fx resume
       ∧ MembershipsManagement.isCreating (current pg) = true).

(** What a run of the admin's payments page may contain, given the members
    [ids] that appear in its select: the rendered method and filter
    buttons, and those members. *)
Definition adminAllowed (ids : list Z) (event : PaymentsManagementRun.Event) : Prop :=
  PaymentsManagementRun.offered event
  ∧ ∀ value, chosenMember event = Some value → value ∈ ids.

(** The state a handler leaves when it finishes or stops at its [await]. *)
Definition suspended {State} (h : Handler State) : State :=
  match h with Finished st _ | Awaiting st _ _ => st end.

(** The whole number a JavaScript number holds, if it holds one. *)
Definition wholeKyat (a : number) : option Z :=
  match a with Num z => Some z | _ => None end.

Definition kyatOf (p : Payment.t) : Z := default 0 (wholeKyat (Payment.amount p)).

Definition wholeAmount (p : Payment.t) : Prop := is_Some (wholeKyat (Payment.amount p)).

(** All four requests of the dashboard were answered with data. *)
Definition allLoaded {A B C D} (a : AdminDashboardData.Fetched A)
  (b : AdminDashboardData.Fetched B) (c : AdminDashboardData.Fetched C)
  (d : AdminDashboardData.Fetched D) : Prop :=
  (∃ x, a = AdminDashboardData.Loaded x) ∧ (∃ x, b = AdminDashboardData.Loaded x)
  ∧ (∃ x, c = AdminDashboardData.Loaded x) ∧ (∃ x, d = AdminDashboardData.Loaded x).

(** States and data for examples. *)
Definition memberAt (amount : number) : MemberPayment.State :=
  {| MemberPayment.user_member_id := Some 7;
     MemberPayment.membershipStatus := None;
     MemberPayment.payments := None;
     MemberPayment.isProcessing := false;
     MemberPayment.showPaymentModal := true;
     MemberPayment.formData :=
       {| MemberPayment.amount := amount; MemberPayment.method := "Credit Card" |} |}.

Definition adminAt (amount : number) : PaymentsManagement.State :=
  {| PaymentsManagement.payments :=
       Some [paymentOf 1 (Num 50000) "2024-01-05" "completed";
             paymentOf 2 (Num 135000) "2024-02-11" "pending";
             paymentOf 3 (Num 480000) "2024-02-12" "failed"];
     PaymentsManagement.isCreating := false;
     PaymentsManagement.showCreateModal := true;
     PaymentsManagement.statusFilter := "pending";
     PaymentsManagement.formData :=
       {| CreatePaymentData.member_id := 12;
          CreatePaymentData.amount := amount;
          CreatePaymentData.method := "Cash" |} |}.

Definition membershipFormAt (type : string) : MembershipsManagement.State :=
  {| MembershipsManagement.memberships := None;
     MembershipsManagement.isCreating := false;
     MembershipsManagement.showCreateModal := true;
     MembershipsManagement.createFormData :=
       {| CreateMembershipData.member_id := 12;
          CreateMembershipData.type := type;
          CreateMembershipData.duration := Num 30;
          CreateMembershipData.fee := Num 50000 |} |}.

Definition receiptOf (number : string) (type : option string) : Receipts.Receipt :=
  {| Receipts.receipt_number := number; Receipts.member_name := "Aye Aye";
     Receipts.date := "2024-02-11"; Receipts.amount := Num 50000;
     Receipts.method := "Cash"; Receipts.status := "completed";
     Receipts.membership_type := type |}.

Definition paymentCall (id : Z) (amount : number) (method : string) : Mutation :=
  CreatePayment {| CreatePaymentData.member_id := id;
                   CreatePaymentData.amount := amount;
                   CreatePaymentData.method := method |}.

(** Case analysis on membership in an explicit list. *)
Ltac each_of H :=
  repeat (apply elem_of_cons in H as [-> | H]); [.. | inversion H].


Import Calendar.

(** A status that differs from every key of a three-entry table is not
    among its own properties. *)
Ltac unlisted Hstatus :=
  rewrite !lookup_insert_ne, lookup_singleton_ne; [reflexivity | ..];
  intros <-; apply Hstatus; repeat constructor.

(** * Properties *)

(** ** Numbers *)

(** [add] agrees with binary64 addition where rounding, ties and overflow
    come into play. *)
Example add_agrees_with_binary64 :
  Forall (λ '(x, y), toBinary64 (add (Num x) (Num y)) = addBinary64 (Num x) (Num y))
    [(50000, 135000); (5, -5); (2 ^ 53, 1); (2 ^ 53, 3); (2 ^ 53 + 2, 1);
     (- 2 ^ 54, -6); (2 ^ 60 + 2 ^ 8, 2 ^ 7 + 1);
     (2 ^ 1023, 2 ^ 1023); (2 ^ 1024 - 2 ^ 971, 2 ^ 970 - 2 ^ 917);
     (- (2 ^ 1024 - 2 ^ 971), - 2 ^ 970)].
Proof. repeat constructor; vm_compute; reflexivity. Qed.

Lemma round53_exact (z : Z) : Z.abs z ≤ 2 ^ 53 → round53 z = z.
Proof.
  intros Hz. unfold round53. cbv zeta.
  destruct (Z.ltb_spec (Z.abs z) (2 ^ 53)) as [Hlt | Hge]; [reflexivity |].
  assert (Habs : Z.abs z = 2 ^ 53) by lia.
  rewrite Habs.
  destruct (Z.abs_eq_or_opp z) as [Heq | Heq]; rewrite Heq in Habs.
  - rewrite Habs. vm_compute. reflexivity.
  - assert (Hneg : z = - 2 ^ 53) by lia. rewrite Hneg. vm_compute. reflexivity.
Qed.

Lemma add_exact (x y : Z) : Z.abs (x + y) ≤ 2 ^ 53 → add (Num x) (Num y) = Num (x + y).
Proof.
  intros Hsum. simpl. unfold ofInteger. rewrite (round53_exact _ Hsum).
  assert (Hover : 2 ^ 53 < overflow) by (vm_compute; reflexivity).
  destruct (Z.leb_spec overflow (Z.abs (x + y))) as [Hle | Hgt]; [lia | reflexivity].
Qed.

Lemma orElse_zero (z : Z) : orElse (Num z) (Num 0) = Num z.
Proof.
  unfold orElse. simpl. destruct (Z.eqb_spec z 0) as [-> | Hne]; reflexivity.
Qed.

(** ** Sums of amounts *)

Lemma foldl_addAmount_exact (ps : list Payment.t) :
  ∀ (kyat : list Z) (acc : Z),
    Payment.amount <$> ps = Num <$> kyat →
    Z.abs acc + sumMagnitudes kyat ≤ 2 ^ 53 →
    foldl addAmount (Num acc) ps = Num (acc + sumKyat kyat).
Proof.
  induction ps as [| p ps IH]; intros [| k kyat] acc Hamounts Hbound;
    try discriminate Hamounts.
  - simpl. f_equal. lia.
  - injection Hamounts as Hp Hps. simpl in Hbound.
    change (foldl addAmount (Num acc) (p :: ps))
      with (foldl addAmount (addAmount (Num acc) p) ps).
    unfold addAmount at 2. rewrite Hp.
    assert (Hnonneg : 0 ≤ sumMagnitudes kyat).
    { clear. induction kyat as [| k' kyat IHk]; simpl; lia. }
    rewrite add_exact by lia.
    rewrite (IH kyat (acc + k) Hps) by lia.
    simpl. f_equal. lia.
Qed.

(** C2, as amended.  For every list of payments, of any statuses, whose
    amounts are whole Kyat with magnitudes adding up to at most 2^53, the
    total revenue of the admin page and the total paid of the member page
    are the exact sum of the amounts; for the empty list, and for a list
    that is not loaded yet, the total is 0. *)
Theorem totalRevenue_exact (ps : list Payment.t) (kyat : list Z) :
  Payment.amount <$> ps = Num <$> kyat →
  sumMagnitudes kyat ≤ 2 ^ 53 →
  PaymentsManagement.totalRevenue (Some ps) = Num (sumKyat kyat)
  ∧ MemberPayment.totalPaid (Some ps) = Num (sumKyat kyat)
  ∧ PaymentsManagement.totalRevenue (Some []) = Num 0
  ∧ MemberPayment.totalPaid (Some []) = Num 0
  ∧ PaymentsManagement.totalRevenue None = Num 0
  ∧ MemberPayment.totalPaid None = Num 0.
Proof.
  intros Hamounts Hbound.
  assert (Hfold : foldl addAmount (Num 0) ps = Num (sumKyat kyat)).
  { rewrite (foldl_addAmount_exact ps kyat 0 Hamounts) by (simpl; lia).
    reflexivity. }
  unfold PaymentsManagement.totalRevenue, MemberPayment.totalPaid.
  rewrite Hfold, orElse_zero.
  repeat split; reflexivity.
Qed.

Lemma totalRevenue_exact_witness :
  PaymentsManagement.totalRevenue
    (Some [paymentOf 1 (Num 50000) "2024-01-05" "completed";
           paymentOf 2 (Num 135000) "2024-02-11" "pending";
           paymentOf 3 (Num 480000) "2024-02-12" "failed"])
  = Num 665000.
Proof.
  apply (totalRevenue_exact
           [paymentOf 1 (Num 50000) "2024-01-05" "completed";
            paymentOf 2 (Num 135000) "2024-02-11" "pending";
            paymentOf 3 (Num 480000) "2024-02-12" "failed"]
           [50000; 135000; 480000]).
  - reflexivity.
  - vm_compute. discriminate.
Defined.

(** C2, as stated, fails beyond 2^53: one Kyat added to 9007199254740992
    Kyat is lost. *)
Lemma totalRevenue_loses_a_kyat :
  let ps := [paymentOf 1 (Num 9007199254740992) "2024-01-05" "completed";
             paymentOf 2 (Num 1) "2024-01-06" "completed"] in
  Payment.amount <$> ps = Num <$> [9007199254740992; 1]
  ∧ PaymentsManagement.totalRevenue (Some ps) = Num 9007199254740992
  ∧ PaymentsManagement.totalRevenue (Some ps) ≠ Num (sumKyat [9007199254740992; 1])
  ∧ MemberPayment.totalPaid (Some ps) ≠ Num (sumKyat [9007199254740992; 1]).
Proof.
  repeat split; try (vm_compute; reflexivity); vm_compute; discriminate.
Qed.

(** ** The active membership *)

Lemma list_find_filter_nil {A} (P : A → Prop) `{!∀ x, Decision (P x)} (l : list A) :
  filter P l = [] → list_find P l = None.
Proof.
  induction l as [| x l IH]; [reflexivity |].
  rewrite filter_cons. simpl. destruct (decide (P x)); [discriminate |].
  intros Hnil. rewrite (IH Hnil). reflexivity.
Qed.

Lemma list_find_filter_cons {A} (P : A → Prop) `{!∀ x, Decision (P x)} (l : list A) :
  ∀ y rest, filter P l = y :: rest → ∃ i, list_find P l = Some (i, y).
Proof.
  induction l as [| x l IH]; intros y rest; [discriminate |].
  rewrite filter_cons. simpl. destruct (decide (P x)).
  - intros [= -> _]. eauto.
  - intros Hfilter. destruct (IH _ _ Hfilter) as [i ->]. simpl. eauto.
Qed.

(** C1.  When exactly one membership of the list is active, the resolver
    answers has_active_membership = true with that membership, which is also
    all that selecting by status == "active" yields; when none is active it
    answers has_active_membership = false and active_membership = null, and
    the selection is empty.  The counts are those the admin pages show. *)
Theorem resolveStatus_unique_active (memberships : list Membership.t) :
  (AdminDashboard.activeMemberships memberships = 1%nat →
   ∃ m, m ∈ memberships
     ∧ Membership.status m = "active"
     ∧ (∀ m', m' ∈ memberships → Membership.status m' = "active" → m' = m)
     ∧ filter (λ m, Membership.status m = "active") memberships = [m]
     ∧ resolveStatus memberships
       = {| has_active_membership := true; active_membership := Some m |})
  ∧ (AdminDashboard.activeMemberships memberships = 0%nat →
     filter (λ m, Membership.status m = "active") memberships = []
     ∧ resolveStatus memberships
       = {| has_active_membership := false; active_membership := None |})
  ∧ MembershipsManagement.activeCount (Some memberships)
    = AdminDashboard.activeMemberships memberships.
Proof.
  unfold AdminDashboard.activeMemberships, MembershipsManagement.activeCount.
  split; [| split; [| reflexivity]].
  - intros Hone.
    destruct (filter _ memberships) as [| m [| m' rest]] eqn:Hfilter;
      try discriminate Hone.
    exists m.
    assert (Hm : m ∈ filter (λ m, Membership.status m = "active") memberships)
      by (rewrite Hfilter; left).
    apply list_elem_of_filter in Hm as [Hactive Hin].
    repeat split; try assumption.
    + intros m' Hin' Hactive'.
      assert (Hm' : m' ∈ filter (λ m, Membership.status m = "active") memberships)
        by (apply list_elem_of_filter; split; assumption).
      rewrite Hfilter in Hm'. apply list_elem_of_singleton in Hm'. exact Hm'.
    + unfold resolveStatus.
      destruct (list_find_filter_cons _ _ _ _ Hfilter) as [i ->]. reflexivity.
  - intros Hzero. apply length_zero_iff_nil in Hzero.
    split; [exact Hzero |].
    unfold resolveStatus. rewrite (list_find_filter_nil _ _ Hzero). reflexivity.
Qed.

Lemma resolveStatus_unique_active_witness :
  resolveStatus [membershipOf 1 "expired"; membershipOf 2 "active"; membershipOf 3 "cancelled"]
  = {| has_active_membership := true; active_membership := Some (membershipOf 2 "active") |}
  ∧ resolveStatus [membershipOf 1 "expired"; membershipOf 3 "cancelled"]
    = {| has_active_membership := false; active_membership := None |}.
Proof.
  split.
  - destruct (proj1 (resolveStatus_unique_active
        [membershipOf 1 "expired"; membershipOf 2 "active"; membershipOf 3 "cancelled"]))
      as (m & _ & _ & _ & Hfilter & Hresolve); [reflexivity |].
    injection Hfilter as <-. exact Hresolve.
  - apply (proj1 (proj2 (resolveStatus_unique_active
        [membershipOf 1 "expired"; membershipOf 3 "cancelled"]))).
    reflexivity.
Defined.

(** ** Payments of the current month *)

Lemma inThisMonth_spec (d now : Date) :
  strictEq (getMonth d) (getMonth now) && strictEq (getFullYear d) (getFullYear now) = true
  ↔ sameMonthAndYear d now.
Proof.
  unfold sameMonthAndYear. rewrite andb_true_iff.
  destruct d as [y m |], now as [y' m' |]; simpl; split.
  - intros [Hm Hy]. apply Z.eqb_eq in Hm, Hy. subst. eauto.
  - intros (? & ? & [= -> ->] & [= -> ->]). split; apply Z.eqb_refl.
  - intros [? _]; discriminate.
  - intros (? & ? & _ & ?); discriminate.
  - intros [? _]; discriminate.
  - intros (? & ? & ? & _); discriminate.
  - intros [? _]; discriminate.
  - intros (? & ? & ? & _); discriminate.
Qed.

Lemma inThisMonth_true (newDate : string → Date) (now : Date) (p : Payment.t) :
  Is_true (AdminDashboard.inThisMonth newDate now p)
  ↔ sameMonthAndYear (newDate (Payment.date p)) now.
Proof.
  rewrite Is_true_true. unfold AdminDashboard.inThisMonth. cbv zeta.
  apply inThisMonth_spec.
Qed.

Lemma thisMonthRevenue_snoc (newDate : string → Date) (now : Date)
  (payments : list Payment.t) (p : Payment.t) :
  AdminDashboard.thisMonthRevenue newDate now (payments ++ [p])
  = if AdminDashboard.inThisMonth newDate now p
    then add (AdminDashboard.thisMonthRevenue newDate now payments) (Payment.amount p)
    else AdminDashboard.thisMonthRevenue newDate now payments.
Proof.
  unfold AdminDashboard.thisMonthRevenue.
  rewrite filter_app, foldl_app, filter_cons, filter_nil.
  destruct (decide _) as [Hin | Hin]; simpl in Hin.
  - apply Is_true_true in Hin. rewrite Hin. reflexivity.
  - apply Is_true_false in Hin. rewrite Hin. reflexivity.
Qed.

Lemma thisMonthRevenue_withStatus (newDate : string → Date) (now : Date)
  (status : string) (payments : list Payment.t) :
  AdminDashboard.thisMonthRevenue newDate now (withStatus status <$> payments)
  = AdminDashboard.thisMonthRevenue newDate now payments.
Proof.
  unfold AdminDashboard.thisMonthRevenue. generalize (Num 0).
  induction payments as [| p payments IH]; intros acc; [reflexivity |].
  rewrite fmap_cons, !filter_cons.
  change (AdminDashboard.inThisMonth newDate now (withStatus status p))
    with (AdminDashboard.inThisMonth newDate now p).
  destruct (decide (AdminDashboard.inThisMonth newDate now p)); [| apply IH].
  change (foldl addAmount acc (withStatus status p :: ?l))
    with (foldl addAmount (addAmount acc p) l).
  apply (IH (addAmount acc p)).
Qed.

(** C8.  Whatever the date parser and the clock, a payment is among this
    month's payments exactly when it is in the list and its date has the
    month and the year of the current date.  The monthly revenue of the
    dashboard counts exactly these payments: it is the running JavaScript
    sum of their amounts from 0, so a further payment raises it by its
    amount when its date is in the current month and year and leaves it
    alone otherwise, and for whole-Kyat amounts within 2^53 it is their
    exact sum.  The status of a payment plays no part, neither in the
    selection nor in the revenue. *)
Theorem thisMonth_same_month_and_year
  (newDate : string → Date) (now : Date) (payments : list Payment.t) :
  (∀ p, p ∈ MemberPayment.thisMonthPayments newDate now (Some payments)
        ↔ p ∈ payments ∧ sameMonthAndYear (newDate (Payment.date p)) now)
  ∧ AdminDashboard.thisMonthRevenue newDate now payments
    = foldl (λ sum p, add sum (Payment.amount p)) (Num 0)
        (MemberPayment.thisMonthPayments newDate now (Some payments))
  ∧ (∀ p,
       (sameMonthAndYear (newDate (Payment.date p)) now →
        AdminDashboard.thisMonthRevenue newDate now (payments ++ [p])
        = add (AdminDashboard.thisMonthRevenue newDate now payments) (Payment.amount p))
       ∧ (¬ sameMonthAndYear (newDate (Payment.date p)) now →
          AdminDashboard.thisMonthRevenue newDate now (payments ++ [p])
          = AdminDashboard.thisMonthRevenue newDate now payments))
  ∧ (∀ kyat,
       Payment.amount <$> MemberPayment.thisMonthPayments newDate now (Some payments)
       = Num <$> kyat →
       sumMagnitudes kyat ≤ 2 ^ 53 →
       AdminDashboard.thisMonthRevenue newDate now payments = Num (sumKyat kyat))
  ∧ (∀ p status,
       MemberPayment.inThisMonth newDate now (withStatus status p)
       = MemberPayment.inThisMonth newDate now p
       ∧ AdminDashboard.inThisMonth newDate now (withStatus status p)
         = AdminDashboard.inThisMonth newDate now p)
  ∧ (∀ status,
       AdminDashboard.thisMonthRevenue newDate now (withStatus status <$> payments)
       = AdminDashboard.thisMonthRevenue newDate now payments).
Proof.
  split; [| split; [| split; [| split; [| split]]]].
  - intros p. unfold MemberPayment.thisMonthPayments.
    rewrite list_elem_of_filter, Is_true_true.
    unfold MemberPayment.inThisMonth. cbv zeta.
    rewrite inThisMonth_spec. tauto.
  - reflexivity.
  - intros p. rewrite thisMonthRevenue_snoc.
    pose proof (inThisMonth_true newDate now p) as Hspec.
    destruct (AdminDashboard.inThisMonth newDate now p); simpl in Hspec.
    + split; [reflexivity |]. intros Hnot. destruct Hnot. apply Hspec. exact I.
    + split; [| reflexivity]. intros Hsame. apply Hspec in Hsame. destruct Hsame.
  - intros kyat Hamounts Hbound.
    change (foldl addAmount (Num 0)
              (MemberPayment.thisMonthPayments newDate now (Some payments))
            = Num (sumKyat kyat)).
    rewrite (foldl_addAmount_exact _ kyat 0 Hamounts) by (simpl; lia).
    reflexivity.
  - intros p status. split; reflexivity.
  - intros status. apply thisMonthRevenue_withStatus.
Qed.

Lemma thisMonth_same_month_and_year_witness :
  let newDate := λ s : string,
    if decide (s = "2024-02-11") then ValidDate 2024 1
    else if decide (s = "2024-02-12") then ValidDate 2024 1
    else if decide (s = "2023-02-11") then ValidDate 2023 1
    else if decide (s = "2024-01-05") then ValidDate 2024 0
    else InvalidDate in
  let payments := [paymentOf 1 (Num 50000) "2024-01-05" "completed";
                   paymentOf 2 (Num 135000) "2024-02-11" "pending";
                   paymentOf 3 (Num 480000) "2023-02-11" "completed";
                   paymentOf 4 (Num 255000) "not a date" "completed"] in
  AdminDashboard.thisMonthRevenue newDate (ValidDate 2024 1) payments = Num 135000
  ∧ AdminDashboard.thisMonthRevenue newDate (ValidDate 2024 1)
      (payments ++ [paymentOf 5 (Num 480000) "2024-02-12" "failed"])
    = add (Num 135000) (Num 480000)
  ∧ AdminDashboard.thisMonthRevenue newDate (ValidDate 2024 1)
      (payments ++ [paymentOf 6 (Num 480000) "2024-01-05" "completed"])
    = Num 135000.
Proof.
  intros newDate payments.
  destruct (thisMonth_same_month_and_year newDate (ValidDate 2024 1) payments)
    as (_ & _ & Hnext & Hexact & _).
  assert (Hrevenue : AdminDashboard.thisMonthRevenue newDate (ValidDate 2024 1) payments
                     = Num 135000).
  { apply (Hexact [135000]); [reflexivity | vm_compute; discriminate]. }
  split; [exact Hrevenue |]. split.
  - rewrite <- Hrevenue.
    apply (proj1 (Hnext (paymentOf 5 (Num 480000) "2024-02-12" "failed"))).
    exists 2024, 1. split; reflexivity.
  - rewrite <- Hrevenue.
    apply (proj2 (Hnext (paymentOf 6 (Num 480000) "2024-01-05" "completed"))).
    intros (y & m & Hdate & Hnow). vm_compute in Hdate.
    injection Hnow as <- <-. discriminate Hdate.
Defined.

(** ** Submitting the payment forms *)

Lemma pretty_N_go_length (x : N) :
  ∀ s, (String.length s ≤ String.length (pretty_N_go x s))%nat.
Proof.
  induction (N.lt_wf_0 x) as [x _ IH]; intros s.
  destruct (decide (x = 0%N)) as [-> | Hpos].
  - rewrite pretty_N_go_0. reflexivity.
  - rewrite pretty_N_go_step by lia.
    etrans; [| apply IH; apply N.div_lt; lia].
    simpl. lia.
Qed.

Lemma pretty_positive_nonempty (p : positive) : pretty p ≠ "".
Proof.
  unfold pretty, pretty_positive, pretty, pretty_N.
  destruct (decide (N.pos p = 0%N)) as [Hzero | _]; [discriminate Hzero |].
  rewrite pretty_N_go_step by lia.
  intros Hempty.
  pose proof (pretty_N_go_length (N.pos p `div` 10)
                (String (pretty_N_char (N.pos p `mod` 10)) "")) as Hlen.
  rewrite Hempty in Hlen. simpl in Hlen. lia.
Qed.

(** A numbered option never leaves a required select empty. *)
Lemma optionValue_valid (id : Z) : requiredValid (optionValue id) = true.
Proof.
  unfold requiredValid, optionValue.
  apply negb_true_iff, bool_decide_eq_false.
  destruct id as [| p | p]; unfold pretty, pretty_Z.
  - discriminate.
  - apply pretty_positive_nonempty.
  - discriminate.
Qed.

Lemma member_submit_sends_form (st : MemberPayment.State) (call : Mutation) :
  Post call ∈ emitted (MemberPayment.submit st) →
  MemberPayment.submitDisabled st = false
  ∧ ∃ id, MemberPayment.user_member_id st = Some id
      ∧ call = CreatePayment
                 {| CreatePaymentData.member_id := id;
                    CreatePaymentData.amount := MemberPayment.amount (MemberPayment.formData st);
                    CreatePaymentData.method := MemberPayment.method (MemberPayment.formData st) |}.
Proof.
  unfold MemberPayment.submit.
  destruct (MemberPayment.submitDisabled st); [intros Hin; inversion Hin |].
  destruct (MemberPayment.formValid st); [| intros Hin; inversion Hin].
  unfold MemberPayment.handleSubmit.
  destruct (MemberPayment.user_member_id st) as [[| p | p] |]; simpl;
    intros Hin; apply list_elem_of_singleton in Hin;
    try discriminate Hin; injection Hin as ->; eauto.
Qed.

Lemma admin_submit_sends_form (st : PaymentsManagement.State) (call : Mutation) :
  Post call ∈ emitted (PaymentsManagement.submit st) →
  PaymentsManagement.submitDisabled st = false
  ∧ call = CreatePayment (PaymentsManagement.formData st).
Proof.
  unfold PaymentsManagement.submit.
  destruct (PaymentsManagement.submitDisabled st); [intros Hin; inversion Hin |].
  destruct (PaymentsManagement.formValid st); [| intros Hin; inversion Hin].
  simpl. intros Hin. apply list_elem_of_singleton in Hin.
  injection Hin as ->. split; reflexivity.
Qed.

(** C3.  In a form state with amount <= 0 a submission runs no handler and
    has no effect at all, in the member's payment form and in the admin's
    payment-recording form alike, so no create-payment request is sent; and
    a create-payment request that a submission does send carries an amount
    for which amount <= 0 is false. *)
Theorem nonpositive_amount_not_submitted :
  (∀ st : MemberPayment.State,
     le (MemberPayment.amount (MemberPayment.formData st)) (Num 0) = true →
     MemberPayment.submit st = Finished st []
     ∧ ∀ call, Post call ∉ emitted (MemberPayment.submit st))
  ∧ (∀ st : PaymentsManagement.State,
       le (CreatePaymentData.amount (PaymentsManagement.formData st)) (Num 0) = true →
       PaymentsManagement.submit st = Finished st []
       ∧ ∀ call, Post call ∉ emitted (PaymentsManagement.submit st))
  ∧ (∀ (st : MemberPayment.State) (data : CreatePaymentData.t),
       Post (CreatePayment data) ∈ emitted (MemberPayment.submit st) →
       le (CreatePaymentData.amount data) (Num 0) = false)
  ∧ (∀ (st : PaymentsManagement.State) (data : CreatePaymentData.t),
       Post (CreatePayment data) ∈ emitted (PaymentsManagement.submit st) →
       le (CreatePaymentData.amount data) (Num 0) = false).
Proof.
  split; [| split; [| split]].
  - intros st Hle.
    assert (Hsubmit : MemberPayment.submit st = Finished st []).
    { unfold MemberPayment.submit, MemberPayment.submitDisabled.
      rewrite Hle, orb_true_r. reflexivity. }
    split; [exact Hsubmit |].
    intros call. rewrite Hsubmit. simpl. apply not_elem_of_nil.
  - intros st Hle.
    assert (Hsubmit : PaymentsManagement.submit st = Finished st []).
    { unfold PaymentsManagement.submit, PaymentsManagement.submitDisabled.
      rewrite Hle, orb_true_r. reflexivity. }
    split; [exact Hsubmit |].
    intros call. rewrite Hsubmit. simpl. apply not_elem_of_nil.
  - intros st data Hin.
    apply member_submit_sends_form in Hin as (Henabled & id & _ & [= ->]).
    unfold MemberPayment.submitDisabled in Henabled.
    apply orb_false_iff in Henabled as [_ Hle]. exact Hle.
  - intros st data Hin.
    apply admin_submit_sends_form in Hin as (Henabled & [= ->]).
    unfold PaymentsManagement.submitDisabled in Henabled.
    apply orb_false_iff in Henabled as [_ Hle]. exact Hle.
Qed.

Lemma nonpositive_amount_not_submitted_witness :
  let member := {| MemberPayment.user_member_id := Some 7;
                   MemberPayment.membershipStatus := None;
                   MemberPayment.payments := Some [];
                   MemberPayment.isProcessing := false;
                   MemberPayment.showPaymentModal := true;
                   MemberPayment.formData := MemberPayment.initialFormData |} in
  let admin := {| PaymentsManagement.payments := Some [];
                  PaymentsManagement.isCreating := false;
                  PaymentsManagement.showCreateModal := true;
                  PaymentsManagement.statusFilter := "all";
                  PaymentsManagement.formData :=
                    {| CreatePaymentData.member_id := 7;
                       CreatePaymentData.amount := Num (-50000);
                       CreatePaymentData.method := "Credit Card" |} |} in
  let payment := {| CreatePaymentData.member_id := 7;
                    CreatePaymentData.amount := Num 50000;
                    CreatePaymentData.method := "Credit Card" |} in
  MemberPayment.submit member = Finished member []
  ∧ PaymentsManagement.submit admin = Finished admin []
  ∧ le (CreatePaymentData.amount payment) (Num 0) = false
  ∧ le (CreatePaymentData.amount payment) (Num 0) = false.
Proof.
  intros member admin payment.
  destruct nonpositive_amount_not_submitted as (Hmember & Hadmin & Hsent & Hsent').
  split; [| split; [| split]].
  - apply (Hmember member). reflexivity.
  - apply (Hadmin admin). reflexivity.
  - apply (Hsent (MemberPayment.amountChanged (Num 50000) member) payment).
    apply list_elem_of_singleton. reflexivity.
  - apply (Hsent' (PaymentsManagement.amountChanged (Num 50000) admin) payment).
    apply list_elem_of_singleton. reflexivity.
Defined.

(** What the admin's form does send: with no request in flight and a
    positive whole amount, the form data go out as they are, whichever
    member number they hold. *)
Lemma record_payment_submitted (st : PaymentsManagement.State) (z : Z) :
  PaymentsManagement.isCreating st = false →
  CreatePaymentData.amount (PaymentsManagement.formData st) = Num z →
  0 < z →
  emitted (PaymentsManagement.submit st)
  = [Post (CreatePayment (PaymentsManagement.formData st))].
Proof.
  intros Hidle Hamount Hpos.
  unfold PaymentsManagement.submit, PaymentsManagement.submitDisabled,
    PaymentsManagement.formValid.
  rewrite Hidle, Hamount, optionValue_valid. simpl.
  destruct (Z.leb_spec z 0) as [? | _]; [lia |].
  destruct (Z.leb_spec 0 z) as [_ | ?]; [| lia].
  reflexivity.
Qed.

(** The member's own page stops short of the request when the session has
    no member number. *)
Lemma member_payment_needs_member (st : MemberPayment.State) :
  MemberPayment.user_member_id st = Some 0 ∨ MemberPayment.user_member_id st = None →
  MemberPayment.handleSubmit st = Finished st [ShowError "Member information not found"].
Proof.
  intros [Hid | Hid]; unfold MemberPayment.handleSubmit; rewrite Hid; reflexivity.
Qed.

(** C4, at the failing input.  The admin opens the form and types an amount
    of 50000 without choosing a member: the member select is still on
    "Select a member..." (member_id = 0), every control passes validation,
    the button is enabled, and the submission sends the create-payment
    request with member_id 0. *)
Theorem record_payment_without_member :
  let opened := {| PaymentsManagement.payments := Some [];
                   PaymentsManagement.isCreating := false;
                   PaymentsManagement.showCreateModal := true;
                   PaymentsManagement.statusFilter := "all";
                   PaymentsManagement.formData := PaymentsManagement.initialFormData |} in
  let st := PaymentsManagement.amountChanged (Num 50000) opened in
  CreatePaymentData.member_id (PaymentsManagement.formData st) = 0
  ∧ PaymentsManagement.submitDisabled st = false
  ∧ PaymentsManagement.formValid st = true
  ∧ emitted (PaymentsManagement.submit st)
    = [Post (CreatePayment {| CreatePaymentData.member_id := 0;
                              CreatePaymentData.amount := Num 50000;
                              CreatePaymentData.method := "Credit Card" |})].
Proof. repeat split; vm_compute; reflexivity. Qed.

(** ** Rejected and accepted requests *)

Lemma messageOr_nonempty (error : ApiError) (fallback : string) :
  fallback ≠ "" → messageOr error fallback ≠ "".
Proof.
  intros Hfallback. unfold messageOr.
  destruct (response_data_message error) as [message |]; [| exact Hfallback].
  destruct (decide (message = "")); assumption.
Qed.

(** C9.  Once a create-payment request has been sent, a rejection leaves
    the form data, the modal and the cached lists as they are at that
    time and raises one error toast with a non-empty message, without
    clearing a cache or refetching; an acceptance resets the form, closes
    the modal and refetches the lists.  This holds for the member's page
    (first two parts) and for the admin's page (last two). *)
Theorem rejected_payment_commits_nothing :
  (∀ (st st' : MemberPayment.State) (id : Z) (error : ApiError),
     MemberPayment.user_member_id st = Some id → id ≠ 0 →
     ∃ st'' message data,
       emitted (MemberPayment.handleSubmit st) = [Post (CreatePayment data)]
       ∧ answered (MemberPayment.handleSubmit st) (Rejected error) st'
         = (st'', [ShowError message])
       ∧ message ≠ ""
       ∧ MemberPayment.formData st'' = MemberPayment.formData st'
       ∧ MemberPayment.showPaymentModal st'' = MemberPayment.showPaymentModal st'
       ∧ MemberPayment.payments st'' = MemberPayment.payments st'
       ∧ MemberPayment.membershipStatus st'' = MemberPayment.membershipStatus st')
  ∧ (∀ (st st' : MemberPayment.State) (id : Z),
       MemberPayment.user_member_id st = Some id → id ≠ 0 →
       ∃ st'' message,
         answered (MemberPayment.handleSubmit st) Resolved st'
         = (st'', [ShowSuccess message; ClearCache "/payments";
                   Refetch MyPayments; Refetch MembershipStatus])
         ∧ MemberPayment.formData st'' = MemberPayment.initialFormData
         ∧ MemberPayment.showPaymentModal st'' = false)
  ∧ (∀ (st st' : PaymentsManagement.State) (error : ApiError),
       ∃ st'' message,
         emitted (PaymentsManagement.handleSubmit st)
         = [Post (CreatePayment (PaymentsManagement.formData st))]
         ∧ answered (PaymentsManagement.handleSubmit st) (Rejected error) st'
           = (st'', [ShowError message])
         ∧ message ≠ ""
         ∧ PaymentsManagement.formData st'' = PaymentsManagement.formData st'
         ∧ PaymentsManagement.showCreateModal st'' = PaymentsManagement.showCreateModal st'
         ∧ PaymentsManagement.payments st'' = PaymentsManagement.payments st')
  ∧ (∀ (st st' : PaymentsManagement.State),
       ∃ st'' message,
         answered (PaymentsManagement.handleSubmit st) Resolved st'
         = (st'', [ShowSuccess message; Refetch AllPayments])
         ∧ PaymentsManagement.formData st'' = PaymentsManagement.initialFormData
         ∧ PaymentsManagement.showCreateModal st'' = false).
Proof.
  repeat split.
  - intros st st' id error Hid Hne.
    unfold MemberPayment.handleSubmit. rewrite Hid.
    destruct id as [| p | p]; [contradiction | |];
      (eexists _, _, _; split; [reflexivity |]; split; [reflexivity |]; split;
       [apply messageOr_nonempty; discriminate | repeat split]).
  - intros st st' id Hid Hne.
    unfold MemberPayment.handleSubmit. rewrite Hid.
    destruct id as [| p | p]; [contradiction | |];
      (eexists _, _; split; [reflexivity | split; reflexivity]).
  - intros st st' error.
    eexists _, _; split; [reflexivity |]; split; [reflexivity |]; split;
      [apply messageOr_nonempty; discriminate | repeat split].
  - intros st st'.
    eexists _, _; split; [reflexivity | split; reflexivity].
Qed.

Lemma rejected_payment_commits_nothing_witness :
  let st := {| MemberPayment.user_member_id := Some 7;
               MemberPayment.membershipStatus := None;
               MemberPayment.payments := Some [paymentOf 1 (Num 50000) "2024-01-05" "completed"];
               MemberPayment.isProcessing := true;
               MemberPayment.showPaymentModal := true;
               MemberPayment.formData :=
                 {| MemberPayment.amount := Num 135000; MemberPayment.method := "KBZ Pay" |} |} in
  (∃ st'' message,
     answered (MemberPayment.handleSubmit st)
       (Rejected {| response_data_message := Some "Insufficient funds" |}) st
     = (st'', [ShowError message])
     ∧ MemberPayment.formData st'' = MemberPayment.formData st
     ∧ MemberPayment.showPaymentModal st'' = true
     ∧ MemberPayment.payments st'' = MemberPayment.payments st)
  ∧ (∃ st'',
       fst (answered (MemberPayment.handleSubmit st) Resolved st) = st''
       ∧ MemberPayment.formData st'' = MemberPayment.initialFormData
       ∧ MemberPayment.showPaymentModal st'' = false).
Proof.
  intros st. split.
  - destruct (proj1 rejected_payment_commits_nothing st st 7
                {| response_data_message := Some "Insufficient funds" |})
      as (st'' & message & data & _ & Hanswered & _ & Hform & Hmodal & Hpayments & _);
      [reflexivity | discriminate |].
    exists st'', message. repeat split; assumption.
  - destruct (proj1 (proj2 rejected_payment_commits_nothing) st st 7)
      as (st'' & message & Hanswered & Hform & Hmodal);
      [reflexivity | discriminate |].
    exists st''. rewrite Hanswered. repeat split; assumption.
Defined.

(** ** Plans and the forms they fill *)

Lemma membership_submit_sends_form (st : MembershipsManagement.State) (call : Mutation) :
  Post call ∈ emitted (MembershipsManagement.submit st) →
  call = CreateMembership (MembershipsManagement.createFormData st).
Proof.
  unfold MembershipsManagement.submit.
  destruct (MembershipsManagement.submitDisabled st); [intros Hin; inversion Hin |].
  destruct (MembershipsManagement.formValid st); [| intros Hin; inversion Hin].
  simpl. intros Hin. apply list_elem_of_singleton in Hin.
  injection Hin as ->. reflexivity.
Qed.

(** C6.  Selecting a plan puts exactly its listed values into the form
    (type, duration and fee in the membership-creation form; the amount in
    the member's payment form) and leaves the other fields alone; an edit
    made afterwards replaces the value of the edited field; and a
    submission sends the form as edited, which it does whenever the edited
    values pass the form's checks. *)
Theorem selected_plan_fills_form :
  (∀ (st : MembershipsManagement.State) (type : MembershipsManagement.MembershipType),
     MembershipsManagement.createFormData
       (MembershipsManagement.selectMembershipType type st)
     = {| CreateMembershipData.member_id :=
            CreateMembershipData.member_id (MembershipsManagement.createFormData st);
          CreateMembershipData.type := MembershipsManagement.label type;
          CreateMembershipData.duration := MembershipsManagement.duration type;
          CreateMembershipData.fee := MembershipsManagement.fee type |})
  ∧ (∀ (st : MemberPayment.State) (plan : MemberPayment.Plan),
       MemberPayment.formData (MemberPayment.selectPlan plan st)
       = {| MemberPayment.amount := MemberPayment.price plan;
            MemberPayment.method := MemberPayment.method (MemberPayment.formData st) |})
  ∧ (∀ (st : MemberPayment.State) (plan : MemberPayment.Plan) (value : number),
       MemberPayment.formData
         (MemberPayment.amountChanged value (MemberPayment.selectPlan plan st))
       = {| MemberPayment.amount := value;
            MemberPayment.method := MemberPayment.method (MemberPayment.formData st) |})
  ∧ (∀ (st : MembershipsManagement.State) (type : MembershipsManagement.MembershipType)
       (name : string) (days price : number),
       let selected := MembershipsManagement.selectMembershipType type st in
       let member := CreateMembershipData.member_id (MembershipsManagement.createFormData st) in
       MembershipsManagement.createFormData (MembershipsManagement.typeChanged name selected)
       = {| CreateMembershipData.member_id := member;
            CreateMembershipData.type := name;
            CreateMembershipData.duration := MembershipsManagement.duration type;
            CreateMembershipData.fee := MembershipsManagement.fee type |}
       ∧ MembershipsManagement.createFormData
           (MembershipsManagement.durationChanged days selected)
         = {| CreateMembershipData.member_id := member;
              CreateMembershipData.type := MembershipsManagement.label type;
              CreateMembershipData.duration := days;
              CreateMembershipData.fee := MembershipsManagement.fee type |}
       ∧ MembershipsManagement.createFormData
           (MembershipsManagement.feeChanged price selected)
         = {| CreateMembershipData.member_id := member;
              CreateMembershipData.type := MembershipsManagement.label type;
              CreateMembershipData.duration := MembershipsManagement.duration type;
              CreateMembershipData.fee := price |})
  ∧ (∀ (st : MemberPayment.State) (plan : MemberPayment.Plan) (value : number)
       (call : Mutation),
       Post call ∈ emitted (MemberPayment.submit
                              (MemberPayment.amountChanged value
                                 (MemberPayment.selectPlan plan st))) →
       ∃ id, call = CreatePayment
                      {| CreatePaymentData.member_id := id;
                         CreatePaymentData.amount := value;
                         CreatePaymentData.method :=
                           MemberPayment.method (MemberPayment.formData st) |})
  ∧ (∀ (st : MemberPayment.State) (plan : MemberPayment.Plan) (kyat id : Z),
       MemberPayment.isProcessing st = false →
       MemberPayment.user_member_id st = Some id → id ≠ 0 →
       0 < kyat →
       emitted (MemberPayment.submit
                  (MemberPayment.amountChanged (Num kyat)
                     (MemberPayment.selectPlan plan st)))
       = [Post (CreatePayment
                  {| CreatePaymentData.member_id := id;
                     CreatePaymentData.amount := Num kyat;
                     CreatePaymentData.method :=
                       MemberPayment.method (MemberPayment.formData st) |})])
  ∧ (∀ (st : MembershipsManagement.State) (type : MembershipsManagement.MembershipType)
       (name : string) (days price : number) (call : Mutation),
       Post call ∈ emitted (MembershipsManagement.submit
                              (MembershipsManagement.feeChanged price
                                 (MembershipsManagement.durationChanged days
                                    (MembershipsManagement.typeChanged name
                                       (MembershipsManagement.selectMembershipType type st))))) →
       call = CreateMembership
                {| CreateMembershipData.member_id :=
                     CreateMembershipData.member_id (MembershipsManagement.createFormData st);
                   CreateMembershipData.type := name;
                   CreateMembershipData.duration := days;
                   CreateMembershipData.fee := price |})
  ∧ (∀ (st : MembershipsManagement.State) (type : MembershipsManagement.MembershipType)
       (name : string) (days price : Z),
       MembershipsManagement.isCreating st = false →
       name ≠ "" → 1 ≤ days → 0 ≤ price →
       emitted (MembershipsManagement.submit
                  (MembershipsManagement.feeChanged (Num price)
                     (MembershipsManagement.durationChanged (Num days)
                        (MembershipsManagement.typeChanged name
                           (MembershipsManagement.selectMembershipType type st)))))
       = [Post (CreateMembership
                  {| CreateMembershipData.member_id :=
                       CreateMembershipData.member_id (MembershipsManagement.createFormData st);
                     CreateMembershipData.type := name;
                     CreateMembershipData.duration := Num days;
                     CreateMembershipData.fee := Num price |})]).
Proof.
  split; [reflexivity |].
  split; [reflexivity |].
  split; [reflexivity |].
  split; [intros; repeat split |].
  split.
  { intros st plan value call Hin.
    apply member_submit_sends_form in Hin as (_ & id & _ & ->).
    exists id. reflexivity. }
  split.
  { intros st plan kyat id Hidle Hid Hne Hpos.
    unfold MemberPayment.submit, MemberPayment.submitDisabled, MemberPayment.formValid.
    simpl. rewrite Hidle. simpl.
    destruct (Z.leb_spec kyat 0) as [? | _]; [lia |].
    destruct (Z.leb_spec 0 kyat) as [_ | ?]; [| lia].
    unfold MemberPayment.handleSubmit. simpl. rewrite Hid.
    destruct id as [| p | p]; [contradiction | reflexivity | reflexivity]. }
  split.
  { intros st type name days price call Hin.
    apply membership_submit_sends_form in Hin as ->. reflexivity. }
  intros st type name days price Hidle Hname Hdays Hprice.
  unfold MembershipsManagement.submit, MembershipsManagement.submitDisabled,
    MembershipsManagement.formValid.
  simpl. rewrite Hidle, optionValue_valid.
  unfold requiredValid. rewrite (bool_decide_eq_false_2 _ Hname). simpl.
  destruct (Z.leb_spec 1 days) as [_ | ?]; [| lia].
  destruct (Z.leb_spec 0 price) as [_ | ?]; [| lia].
  reflexivity.
Qed.

Lemma selected_plan_fills_form_witness :
  let st := {| MemberPayment.user_member_id := Some 7;
               MemberPayment.membershipStatus := None;
               MemberPayment.payments := None;
               MemberPayment.isProcessing := false;
               MemberPayment.showPaymentModal := true;
               MemberPayment.formData := MemberPayment.initialFormData |} in
  let annual := {| MemberPayment.name := "Annual"; MemberPayment.duration := Num 365;
                   MemberPayment.price := Num 480000 |} in
  let st' := {| MembershipsManagement.memberships := None;
                MembershipsManagement.isCreating := false;
                MembershipsManagement.showCreateModal := true;
                MembershipsManagement.createFormData :=
                  {| CreateMembershipData.member_id := 7;
                     CreateMembershipData.type := "";
                     CreateMembershipData.duration := Num 30;
                     CreateMembershipData.fee := Num 0 |} |} in
  let monthly := {| MembershipsManagement.label := "Monthly";
                    MembershipsManagement.duration := Num 30;
                    MembershipsManagement.fee := Num 50000 |} in
  let payment := {| CreatePaymentData.member_id := 7;
                    CreatePaymentData.amount := Num 450000;
                    CreatePaymentData.method := "Credit Card" |} in
  let membership := {| CreateMembershipData.member_id := 7;
                       CreateMembershipData.type := "Trial";
                       CreateMembershipData.duration := Num 14;
                       CreateMembershipData.fee := Num 20000 |} in
  emitted (MemberPayment.submit
             (MemberPayment.amountChanged (Num 450000) (MemberPayment.selectPlan annual st)))
  = [Post (CreatePayment payment)]
  ∧ (∃ id, CreatePayment payment
           = CreatePayment {| CreatePaymentData.member_id := id;
                              CreatePaymentData.amount := Num 450000;
                              CreatePaymentData.method := "Credit Card" |})
  ∧ emitted (MembershipsManagement.submit
               (MembershipsManagement.feeChanged (Num 20000)
                  (MembershipsManagement.durationChanged (Num 14)
                     (MembershipsManagement.typeChanged "Trial"
                        (MembershipsManagement.selectMembershipType monthly st')))))
    = [Post (CreateMembership membership)]
  ∧ CreateMembership membership = CreateMembership membership.
Proof.
  intros st annual st' monthly payment membership.
  destruct selected_plan_fills_form
    as (_ & _ & _ & _ & Hsent & Hsends & Hsent' & Hsends').
  split; [| split; [| split]].
  - apply (Hsends st annual 450000 7);
      [reflexivity | reflexivity | discriminate | reflexivity].
  - apply (Hsent st annual (Num 450000) (CreatePayment payment)).
    apply list_elem_of_singleton. reflexivity.
  - apply (Hsends' st' monthly "Trial" 14 20000);
      [reflexivity | discriminate | discriminate | discriminate].
  - apply (Hsent' st' monthly "Trial" (Num 14) (Num 20000) (CreateMembership membership)).
    apply list_elem_of_singleton. reflexivity.
Defined.

(** C7.  The admin's catalog and the member's catalog give the Annual plan
    different fees (550000 against 480000), so there is a plan label on
    which the two fee tables disagree and the tables are not equal as
    mappings from label to fee; the durations of the two catalogs agree:
    30, 90, 180 and 365 days. *)
Theorem catalogs_disagree_on_fees :
  adminFees !! "Annual" = Some (Num 550000)
  ∧ memberFees !! "Annual" = Some (Num 480000)
  ∧ (∃ label fee fee',
       adminFees !! label = Some fee ∧ memberFees !! label = Some fee' ∧ fee ≠ fee')
  ∧ adminFees ≠ memberFees
  ∧ MembershipsManagement.duration <$> MembershipsManagement.membershipTypes
    = [Num 30; Num 90; Num 180; Num 365]
  ∧ MemberPayment.duration <$> MemberPayment.membershipPlans
    = [Num 30; Num 90; Num 180; Num 365].
Proof.
  assert (Hadmin : adminFees !! "Annual" = Some (Num 550000)) by (vm_compute; reflexivity).
  assert (Hmember : memberFees !! "Annual" = Some (Num 480000)) by (vm_compute; reflexivity).
  split; [exact Hadmin |].
  split; [exact Hmember |].
  split.
  { exists "Annual", (Num 550000), (Num 480000).
    split; [exact Hadmin |]. split; [exact Hmember | discriminate]. }
  split.
  { intros Heq. rewrite Heq, Hmember in Hadmin. discriminate Hadmin. }
  split; reflexivity.
Qed.

(** ** Styles of a status *)

Lemma getProperty_unknown (object : gmap string StatusStyle) (key : string) :
  object !! key = None → key ∉ objectPrototype → getProperty object key = Undefined.
Proof.
  intros Hown Hproto. unfold getProperty. rewrite Hown.
  destruct (decide (key ∈ objectPrototype)); [contradiction | reflexivity].
Qed.

(** The fallback does work for a status that is neither listed nor the name
    of a property of [Object.prototype]; a listed status gets its own
    style. *)
Lemma getStatusConfig_fallback (status : string) :
  status ∉ ["completed"; "pending"; "failed"] →
  status ∉ objectPrototype →
  PaymentsManagement.getStatusConfig status = Own PaymentsManagement.completed.
Proof.
  intros Hstatus Hproto.
  unfold PaymentsManagement.getStatusConfig.
  rewrite getProperty_unknown; [reflexivity | | exact Hproto].
  unfold PaymentsManagement.configs. unlisted Hstatus.
Qed.

Lemma getStatusBadge_fallback (status : string) :
  status ∉ ["active"; "expired"; "cancelled"] →
  status ∉ objectPrototype →
  MembershipsManagement.getStatusBadge status = Own MembershipsManagement.active.
Proof.
  intros Hstatus Hproto.
  unfold MembershipsManagement.getStatusBadge.
  rewrite getProperty_unknown; [reflexivity | | exact Hproto].
  unfold MembershipsManagement.styles. unlisted Hstatus.
Qed.

Lemma status_styles_listed :
  PaymentsManagement.getStatusConfig "completed" = Own PaymentsManagement.completed
  ∧ PaymentsManagement.getStatusConfig "pending" = Own PaymentsManagement.pending
  ∧ PaymentsManagement.getStatusConfig "failed" = Own PaymentsManagement.failed
  ∧ PaymentsManagement.getStatusConfig "refunded" = Own PaymentsManagement.completed
  ∧ MembershipsManagement.getStatusBadge "active" = Own MembershipsManagement.active
  ∧ MembershipsManagement.getStatusBadge "expired" = Own MembershipsManagement.expired
  ∧ MembershipsManagement.getStatusBadge "cancelled" = Own MembershipsManagement.cancelled
  ∧ MembershipsManagement.getStatusBadge "" = Own MembershipsManagement.active.
Proof. repeat split; vm_compute; reflexivity. Qed.

(** C10, at the failing input.  The status "constructor" is outside both
    enumerations, yet neither lookup falls back: each returns the property
    the table inherits from [Object.prototype], which is not a style. *)
Theorem status_constructor_is_inherited :
  ("constructor" ∉ ["completed"; "pending"; "failed"])
  ∧ ("constructor" ∉ ["active"; "expired"; "cancelled"])
  ∧ PaymentsManagement.getStatusConfig "constructor" = Inherited "constructor"
  ∧ PaymentsManagement.getStatusConfig "constructor" ≠ Own PaymentsManagement.completed
  ∧ MembershipsManagement.getStatusBadge "constructor" = Inherited "constructor"
  ∧ MembershipsManagement.getStatusBadge "constructor" ≠ Own MembershipsManagement.active.
Proof.
  assert (Hconfig : PaymentsManagement.getStatusConfig "constructor" = Inherited "constructor")
    by (vm_compute; reflexivity).
  assert (Hbadge : MembershipsManagement.getStatusBadge "constructor" = Inherited "constructor")
    by (vm_compute; reflexivity).
  split; [rewrite !not_elem_of_cons; repeat split; try discriminate; apply not_elem_of_nil |].
  split; [rewrite !not_elem_of_cons; repeat split; try discriminate; apply not_elem_of_nil |].
  split; [exact Hconfig |].
  split; [rewrite Hconfig; discriminate |].
  split; [exact Hbadge |].
  rewrite Hbadge. discriminate.
Qed.

(** ** The end date of a membership *)

Lemma div_previous (y k : Z) :
  0 < k → (y - 1) / k = y / k - (if y mod k =? 0 then 1 else 0).
Proof.
  intros Hk. destruct (Z.eqb_spec (y mod k) 0) as [Hzero | Hrest].
  - symmetry. apply Z.div_unique with (r := k - 1); [lia |].
    pose proof (Z.div_mod y k). lia.
  - symmetry. apply Z.div_unique with (r := y mod k - 1).
    + pose proof (Z.mod_pos_bound y k Hk). lia.
    + pose proof (Z.div_mod y k). lia.
Qed.

Lemma mod_of_multiple (y k j : Z) : 0 < k → 0 < j → y mod (k * j) = 0 → y mod k = 0.
Proof.
  intros Hk Hj Hzero.
  apply Z.mod_divide in Hzero; [| lia].
  apply Z.mod_divide; [lia |].
  destruct Hzero as [c ->]. exists (c * j). lia.
Qed.

Lemma daysBeforeYear_next (y : Z) :
  daysBeforeYear (y + 1) = daysBeforeYear y + (if isLeapYear y then 366 else 365).
Proof.
  unfold daysBeforeYear, isLeapYear.
  replace (y + 1 - 1) with y by lia.
  rewrite (div_previous y 4), (div_previous y 100), (div_previous y 400) by lia.
  pose proof (mod_of_multiple y 4 25) as H4.
  pose proof (mod_of_multiple y 100 4) as H100.
  change (100 * 4) with 400 in H100. change (4 * 25) with 100 in H4.
  destruct (Z.eqb_spec (y mod 4) 0), (Z.eqb_spec (y mod 100) 0),
    (Z.eqb_spec (y mod 400) 0); simpl; lia.
Qed.

Lemma nextDay_counts_one (d : date) :
  valid d → valid (nextDay d) ∧ dayNumber (nextDay d) = dayNumber d + 1.
Proof.
  destruct d as [y m d]. unfold valid, nextDay, dayNumber. simpl.
  intros [Hmonth Hday].
  assert (Hcases : m = 1 ∨ m = 2 ∨ m = 3 ∨ m = 4 ∨ m = 5 ∨ m = 6 ∨ m = 7
                   ∨ m = 8 ∨ m = 9 ∨ m = 10 ∨ m = 11 ∨ m = 12) by lia.
  pose proof (daysBeforeYear_next y) as Hyear.
  unfold daysInMonth, daysBeforeMonth in *.
  destruct Hcases as [-> | [-> | [-> | [-> | [-> | [-> | [-> | [-> | [-> | [-> | [-> | ->]]]]]]]]]]];
    simpl in *;
    destruct (isLeapYear y) eqn:Hleap; simpl in *;
    match goal with
    | |- context [d <? ?n] => destruct (Z.ltb_spec d n)
    end; simpl; rewrite ?Hleap, ?andb_false_r; simpl; lia.
Qed.

Lemma addDays_counts_days (d : date) (n : nat) :
  valid d →
  valid (Nat.iter n nextDay d)
  ∧ dayNumber (Nat.iter n nextDay d) = dayNumber d + Z.of_nat n.
Proof.
  intros Hvalid. induction n as [| n [IHvalid IHnumber]].
  - simpl. split; [exact Hvalid | lia].
  - rewrite Nat.iter_succ.
    destruct (nextDay_counts_one _ IHvalid) as [Hnext Hone].
    split; [exact Hnext | lia].
Qed.

(** C5, as amended.  The end date of a membership at creation is its start
    date plus its duration counted in days: a valid date whose day number
    is that of the start date plus the duration.  In particular 365 days
    from 2024-01-01 end on 2024-12-31, 2024 being a leap year; 2025-01-01
    is 366 days from it. *)
Theorem end_date_counts_days (start_date : date) (duration : Z) :
  valid start_date → 0 ≤ duration →
  valid (endDateAtCreation start_date duration)
  ∧ dayNumber (endDateAtCreation start_date duration) = dayNumber start_date + duration
  ∧ endDateAtCreation {| year := 2024; month := 1; day := 1 |} 365
    = {| year := 2024; month := 12; day := 31 |}
  ∧ endDateAtCreation {| year := 2024; month := 1; day := 1 |} 366
    = {| year := 2025; month := 1; day := 1 |}.
Proof.
  intros Hvalid Hduration. unfold endDateAtCreation, addDays.
  destruct (addDays_counts_days start_date (Z.to_nat duration) Hvalid) as [Hend Hnumber].
  split; [exact Hend |].
  split; [lia |].
  split; vm_compute; reflexivity.
Qed.

Lemma end_date_counts_days_witness :
  dayNumber (endDateAtCreation {| year := 2024; month := 1; day := 1 |} 365)
  = dayNumber {| year := 2024; month := 1; day := 1 |} + 365.
Proof.
  apply (end_date_counts_days {| year := 2024; month := 1; day := 1 |} 365).
  - repeat split; vm_compute; discriminate.
  - lia.
Defined.

(** C5, as stated, fails on its own example: 365 days from 2024-01-01 do
    not reach 2025-01-01. *)
Lemma annual_from_2024_ends_in_2024 :
  endDateAtCreation {| year := 2024; month := 1; day := 1 |} 365
  ≠ {| year := 2025; month := 1; day := 1 |}.
Proof. vm_compute. discriminate. Qed.

(** * Further properties of the pages *)

(** ** Runs of the payment pages *)

Lemma run_cons {State Event} (step : Page State → Event → Page State * list Effect)
  (pg : Page State) (event : Event) (events : list Event) :
  run step pg (event :: events)
  = ((run step (step pg event).1 events).1,
     (step pg event).2 ++ (run step (step pg event).1 events).2).
Proof.
  simpl. destruct (step pg event) as [pg' fx]. simpl.
  destruct (run step pg' events) as [pg'' fx']. reflexivity.
Qed.

Lemma filter_isPost_nil (fx : list Effect) :
  (∀ call, Post call ∉ fx) → filter isPost fx = [].
Proof.
  induction fx as [| e fx IH]; intros Hnone; [reflexivity |].
  rewrite filter_cons.
  destruct e as [call | | | |]; simpl;
    try (apply IH; intros call' Hin; apply (Hnone call'); right; exact Hin).
  destruct (Hnone call). left.
Qed.

(** A submission either does nothing or sends one request, built from the
    session's member number and the form, and raises the loading flag. *)
Lemma member_submit_cases (st : MemberPayment.State) :
  (∃ fx, MemberPayment.submit st = Finished st fx ∧ ∀ call, Post call ∉ fx)
  ∨ (∃ id resume,
       MemberPayment.user_member_id st = Some id ∧ id ≠ 0
       ∧ MemberPayment.isProcessing st = false
       ∧ le (MemberPayment.amount (MemberPayment.formData st)) (Num 0) = false
       ∧ MemberPayment.handleSubmit st
         = Awaiting (MemberPayment.setIsProcessing true st)
             [Post (CreatePayment
                      {| CreatePaymentData.member_id := id;
                         CreatePaymentData.amount :=
                           MemberPayment.amount (MemberPayment.formData st);
                         CreatePaymentData.method :=
                           MemberPayment.method (MemberPayment.formData st) |})]
             resume
       ∧ MemberPayment.submit st = MemberPayment.handleSubmit st).
Proof.
  unfold MemberPayment.submit, MemberPayment.submitDisabled.
  destruct (MemberPayment.isProcessing st) eqn:Hbusy; simpl.
  { left. exists []. split; [reflexivity | intros call; apply not_elem_of_nil]. }
  destruct (le _ _) eqn:Hle.
  { left. exists []. split; [reflexivity | intros call; apply not_elem_of_nil]. }
  destruct (MemberPayment.formValid st).
  2:{ left. exists []. split; [reflexivity | intros call; apply not_elem_of_nil]. }
  unfold MemberPayment.handleSubmit.
  destruct (MemberPayment.user_member_id st) as [[| p | p] |].
  1, 4: (left; eexists; split; [reflexivity |];
         intros call Hin; apply list_elem_of_singleton in Hin; discriminate Hin).
  all: right; eexists _, _; repeat split; discriminate.
Qed.

(** The rest of [handleSubmit] sends nothing, lowers the loading flag, and
    either leaves the form alone or resets it. *)
Lemma member_resume_cases (st0 st1 : MemberPayment.State) (fx : list Effect)
  (resume : Result → MemberPayment.State → MemberPayment.State * list Effect)
  (result : Result) (st : MemberPayment.State) :
  MemberPayment.handleSubmit st0 = Awaiting st1 fx resume →
  (∀ call, Post call ∉ (resume result st).2)
  ∧ MemberPayment.user_member_id (resume result st).1 = MemberPayment.user_member_id st
  ∧ MemberPayment.isProcessing (resume result st).1 = false
  ∧ (MemberPayment.formData (resume result st).1 = MemberPayment.formData st
     ∨ MemberPayment.formData (resume result st).1 = MemberPayment.initialFormData).
Proof.
  unfold MemberPayment.handleSubmit.
  destruct (MemberPayment.user_member_id st0) as [[| p | p] |];
    intros Hresume; try discriminate Hresume;
    injection Hresume as _ _ <-; destruct result as [| error]; simpl;
    (split; [| repeat split; auto]);
    intros call Hin;
    repeat (apply elem_of_cons in Hin as [Hin | Hin]; [discriminate Hin |]);
    inversion Hin.
Qed.

Lemma member_step_settled (id : option Z) (pg : Page MemberPayment.State)
  (event : MemberPaymentRun.Event) :
  memberSettled id pg →
  memberSettled id (MemberPaymentRun.step pg event).1
  ∧ (∀ call, Post call ∈ (MemberPaymentRun.step pg event).2 →
       ∃ data, call = CreatePayment data
         ∧ id = Some (CreatePaymentData.member_id data)
         ∧ CreatePaymentData.member_id data ≠ 0
         ∧ CreatePaymentData.method data = "Credit Card"
         ∧ le (CreatePaymentData.amount data) (Num 0) = false)
  ∧ (length (filter isPost (MemberPaymentRun.step pg event).2)
     + length (waiting pg)
     ≤ length (waiting (MemberPaymentRun.step pg event).1)
       + (if MemberPaymentRun.isAnswer event then 1 else 0))%nat.
Proof.
  destruct pg as [st pending]. intros (Hid & Hmethod & Hwait). simpl in *.
  assert (Hnone : ∀ call : Mutation, Post call ∈ [] → False)
    by (intros call Hin; inversion Hin).
  destruct event as [| | plan | value | | result]; simpl.
  1-4: (split; [repeat split; assumption |]; split;
        [intros call Hin; destruct (Hnone _ Hin) | lia]).
  - (* Submit *)
    unfold called. simpl.
    destruct (member_submit_cases st)
      as [(fx & Hsubmit & Hfx)
         | (id' & resume & Huser & Hne & Hidle & Hle & Hhandle & Hsubmit)].
    + rewrite Hsubmit. simpl.
      split; [repeat split; assumption |].
      split; [intros call Hin; destruct (Hfx _ Hin) |].
      rewrite (filter_isPost_nil _ Hfx). simpl. lia.
    + rewrite Hsubmit, Hhandle. simpl.
      destruct Hwait as [[-> _] | (? & ? & ? & ? & _ & _ & Hbusy)]; [| congruence].
      split.
      { split; [assumption |]. split; [assumption |]. right.
        eexists _, _, _, _. split; [reflexivity |]. split; [exact Hhandle | reflexivity]. }
      split; [| simpl; lia].
      intros call Hin. apply list_elem_of_singleton in Hin. injection Hin as ->.
      eexists. split; [reflexivity |]. simpl.
      repeat split; try assumption. congruence.
  - (* Answer *)
    unfold answer. simpl.
    destruct Hwait as [[-> Hidle] | (resume & st0 & st1 & fx & -> & Hresume & Hbusy)].
    + simpl. split; [repeat split; try assumption; left; split; [reflexivity | assumption] |].
      split; [intros call Hin; destruct (Hnone _ Hin) | simpl; lia].
    + pose proof (member_resume_cases st0 st1 fx resume result st Hresume) as Hcases.
      destruct (resume result st) as [st' fx']. simpl in *.
      destruct Hcases as (Hfx & Huser & Hidle & Hform).
      split.
      { unfold memberSettled. simpl.
        split; [congruence |]. split; [| left; split; [reflexivity | assumption]].
        destruct Hform as [-> | ->]; [assumption | reflexivity]. }
      split; [intros call Hin; destruct (Hfx _ Hin) |].
      rewrite (filter_isPost_nil _ Hfx). simpl. lia.
Qed.

Lemma member_run_settled (id : option Z) (events : list MemberPaymentRun.Event) :
  ∀ pg, memberSettled id pg →
    memberSettled id (run MemberPaymentRun.step pg events).1
    ∧ (∀ call, Post call ∈ (run MemberPaymentRun.step pg events).2 →
         ∃ data, call = CreatePayment data
           ∧ id = Some (CreatePaymentData.member_id data)
           ∧ CreatePaymentData.member_id data ≠ 0
           ∧ CreatePaymentData.method data = "Credit Card"
           ∧ le (CreatePaymentData.amount data) (Num 0) = false)
    ∧ (length (filter isPost (run MemberPaymentRun.step pg events).2)
       + length (waiting pg)
       ≤ length (waiting (run MemberPaymentRun.step pg events).1)
         + length (filter MemberPaymentRun.isAnswer events))%nat.
Proof.
  induction events as [| event events IH]; intros pg Hsettled.
  - simpl. split; [assumption |]. split; [| lia].
    intros call Hin. inversion Hin.
  - rewrite run_cons. simpl.
    destruct (member_step_settled id pg event Hsettled) as (Hnext & Hsent & Hcount).
    destruct (IH _ Hnext) as (Hlast & Hsent' & Hcount').
    split; [assumption |]. split.
    + intros call Hin. apply elem_of_app in Hin as [Hin | Hin]; eauto.
    + rewrite filter_app, length_app, filter_cons.
      destruct (MemberPaymentRun.isAnswer event); simpl in *; lia.
Qed.

Lemma admin_submit_cases (st : PaymentsManagement.State) :
  PaymentsManagement.submit st = Finished st []
  ∨ (PaymentsManagement.isCreating st = false
     ∧ (∃ z, CreatePaymentData.amount (PaymentsManagement.formData st) = Num z ∧ 0 < z)
     ∧ PaymentsManagement.submit st = PaymentsManagement.handleSubmit st).
Proof.
  unfold PaymentsManagement.submit, PaymentsManagement.submitDisabled,
    PaymentsManagement.formValid.
  rewrite optionValue_valid.
  destruct (PaymentsManagement.isCreating st); simpl; [left; reflexivity |].
  destruct (CreatePaymentData.amount (PaymentsManagement.formData st))
    as [z | negative |]; simpl.
  - destruct (Z.leb_spec z 0); [left; reflexivity |].
    destruct (Z.leb_spec 0 z); [| lia].
    right. split; [reflexivity |]. split; [exists z; split; [reflexivity | lia] | reflexivity].
  - destruct negative; left; reflexivity.
  - left; reflexivity.
Qed.

Lemma admin_resume_cases (st0 st1 : PaymentsManagement.State) (fx : list Effect)
  (resume : Result → PaymentsManagement.State → PaymentsManagement.State * list Effect)
  (result : Result) (st : PaymentsManagement.State) :
  PaymentsManagement.handleSubmit st0 = Awaiting st1 fx resume →
  (∀ call, Post call ∉ (resume result st).2)
  ∧ PaymentsManagement.isCreating (resume result st).1 = false
  ∧ (PaymentsManagement.formData (resume result st).1 = PaymentsManagement.formData st
     ∨ PaymentsManagement.formData (resume result st).1
       = PaymentsManagement.initialFormData).
Proof.
  unfold PaymentsManagement.handleSubmit. intros Hresume.
  injection Hresume as _ _ <-. destruct result as [| error]; simpl;
    (split; [| split; auto]);
    intros call Hin;
    repeat (apply elem_of_cons in Hin as [Hin | Hin]; [discriminate Hin |]);
    inversion Hin.
Qed.

Lemma admin_step_settled (ids : list Z) (pg : Page PaymentsManagement.State)
  (event : PaymentsManagementRun.Event) :
  adminSettled ids pg →
  PaymentsManagementRun.offered event →
  (∀ value, chosenMember event = Some value → value ∈ ids) →
  adminSettled ids (PaymentsManagementRun.step pg event).1
  ∧ (∀ call, Post call ∈ (PaymentsManagementRun.step pg event).2 →
       ∃ data, call = CreatePayment data
         ∧ CreatePaymentData.member_id data ∈ 0 :: ids
         ∧ CreatePaymentData.method data ∈ PaymentsManagement.paymentMethods
         ∧ ∃ z, CreatePaymentData.amount data = Num z ∧ 0 < z)
  ∧ (length (filter isPost (PaymentsManagementRun.step pg event).2)
     + length (waiting pg)
     ≤ length (waiting (PaymentsManagementRun.step pg event).1)
       + (if PaymentsManagementRun.isAnswer event then 1 else 0))%nat.
Proof.
  destruct pg as [st pending]. intros (Hmember & Hmethod & Hwait) Hoffered Hchosen.
  simpl in *.
  assert (Hnone : ∀ call : Mutation, Post call ∈ [] → False)
    by (intros call Hin; inversion Hin).
  destruct event as [| | member | value | name | name | | result]; simpl.
  1, 2, 4, 6: (split; [repeat split; assumption |]; split;
               [intros call Hin; destruct (Hnone _ Hin) | lia]).
  - (* ChangeMember *)
    split; [| split; [intros call Hin; destruct (Hnone _ Hin) | lia]].
    split; [right; apply Hchosen; reflexivity | split; assumption].
  - (* ChooseMethod *)
    split; [| split; [intros call Hin; destruct (Hnone _ Hin) | lia]].
    split; [assumption | split; assumption].
  - (* Submit *)
    unfold called. simpl.
    destruct (admin_submit_cases st) as [Hsubmit | (Hidle & Hamount & Hsubmit)].
    + rewrite Hsubmit. simpl.
      split; [repeat split; assumption |].
      split; [intros call Hin; destruct (Hnone _ Hin) | lia].
    + rewrite Hsubmit. simpl.
      destruct Hwait as [[-> _] | (? & ? & ? & ? & _ & _ & Hbusy)]; [| congruence].
      split.
      { split; [assumption |]. split; [assumption |]. right.
        eexists _, st, _, _. split; [reflexivity |]. split; reflexivity. }
      split; [| simpl; lia].
      intros call Hin. apply list_elem_of_singleton in Hin. injection Hin as ->.
      eexists. split; [reflexivity |]. repeat split; assumption.
  - (* Answer *)
    unfold answer. simpl.
    destruct Hwait as [[-> Hidle] | (resume & st0 & st1 & fx & -> & Hresume & Hbusy)].
    + simpl. split; [repeat split; try assumption; left; split; [reflexivity | assumption] |].
      split; [intros call Hin; destruct (Hnone _ Hin) | simpl; lia].
    + pose proof (admin_resume_cases st0 st1 fx resume result st Hresume) as Hcases.
      destruct (resume result st) as [st' fx']. simpl in *.
      destruct Hcases as (Hfx & Hidle & Hform).
      split.
      { unfold adminSettled. simpl.
        destruct Hform as [-> | ->];
          (split; [| split; [| left; split; [reflexivity | assumption]]]);
          try assumption; [left | repeat constructor]. }
      split; [intros call Hin; destruct (Hfx _ Hin) |].
      rewrite (filter_isPost_nil _ Hfx). simpl. lia.
Qed.

Lemma admin_run_settled (ids : list Z) (events : list PaymentsManagementRun.Event) :
  Forall PaymentsManagementRun.offered events →
  (∀ value, PaymentsManagementRun.ChangeMember value ∈ events → value ∈ ids) →
  ∀ pg, adminSettled ids pg →
    adminSettled ids (run PaymentsManagementRun.step pg events).1
    ∧ (∀ call, Post call ∈ (run PaymentsManagementRun.step pg events).2 →
         ∃ data, call = CreatePayment data
           ∧ CreatePaymentData.member_id data ∈ 0 :: ids
           ∧ CreatePaymentData.method data ∈ PaymentsManagement.paymentMethods
           ∧ ∃ z, CreatePaymentData.amount data = Num z ∧ 0 < z)
    ∧ (length (filter isPost (run PaymentsManagementRun.step pg events).2)
       + length (waiting pg)
       ≤ length (waiting (run PaymentsManagementRun.step pg events).1)
         + length (filter PaymentsManagementRun.isAnswer events))%nat.
Proof.
  induction events as [| event events IH]; intros Hoffered Hchosen pg Hsettled.
  - simpl. split; [assumption |]. split; [| lia].
    intros call Hin. inversion Hin.
  - rewrite run_cons. simpl.
    apply Forall_cons in Hoffered as [Hevent Hoffered].
    destruct (admin_step_settled ids pg event Hsettled Hevent) as (Hnext & Hsent & Hcount).
    { intros value Hvalue. apply Hchosen. destruct event; try discriminate Hvalue.
      injection Hvalue as ->. left. }
    destruct (IH Hoffered (λ value Hin, Hchosen value (list_elem_of_further _ _ _ Hin)) _ Hnext)
      as (Hlast & Hsent' & Hcount').
    split; [assumption |]. split.
    + intros call Hin. apply elem_of_app in Hin as [Hin | Hin]; eauto.
    + rewrite filter_app, length_app, filter_cons.
      destruct (PaymentsManagementRun.isAnswer event); simpl in *; lia.
Qed.

Lemma member_mounted_settled (id : option Z) :
  memberSettled id (MemberPaymentRun.mounted id).
Proof. repeat split. left. split; reflexivity. Qed.

Lemma admin_mounted_settled (ids : list Z) :
  adminSettled ids PaymentsManagementRun.mounted.
Proof.
  split; [left |]. split; [repeat constructor |]. left. split; reflexivity.
Qed.

(** X1.  Along every run of the member's payment page from its mounted
    state, whatever plans are selected and amounts typed, each request sent
    is a create-payment request that names the session's member, a member
    number other than 0, the method "Credit Card" (the form has no control
    that changes it), and an amount for which amount <= 0 is false. *)
Theorem member_requests_name_the_session_and_credit_card
  (id : option Z) (events : list MemberPaymentRun.Event) (call : Mutation) :
  Post call ∈ (run MemberPaymentRun.step (MemberPaymentRun.mounted id) events).2 →
  ∃ data, call = CreatePayment data
    ∧ id = Some (CreatePaymentData.member_id data)
    ∧ CreatePaymentData.member_id data ≠ 0
    ∧ CreatePaymentData.method data = "Credit Card"
    ∧ le (CreatePaymentData.amount data) (Num 0) = false.
Proof.
  intros Hin.
  destruct (member_run_settled id events _ (member_mounted_settled id)) as (_ & Hsent & _).
  exact (Hsent call Hin).
Qed.

Lemma member_requests_name_the_session_and_credit_card_witness :
  ∃ data,
    CreatePayment {| CreatePaymentData.member_id := 7;
                     CreatePaymentData.amount := Num 480000;
                     CreatePaymentData.method := "Credit Card" |}
    = CreatePayment data
    ∧ Some 7 = Some (CreatePaymentData.member_id data)
    ∧ CreatePaymentData.member_id data ≠ 0
    ∧ CreatePaymentData.method data = "Credit Card"
    ∧ le (CreatePaymentData.amount data) (Num 0) = false.
Proof.
  apply (member_requests_name_the_session_and_credit_card (Some 7)
           [MemberPaymentRun.OpenModal;
            MemberPaymentRun.SelectPlan
              {| MemberPayment.name := "Annual"; MemberPayment.duration := Num 365;
                 MemberPayment.price := Num 480000 |};
            MemberPaymentRun.Submit;
            MemberPaymentRun.Submit;
            MemberPaymentRun.Answer Resolved]).
  vm_compute. left.
Defined.

(** X2.  Along every run of the admin's payments page in which methods
    and filters are chosen with the buttons rendered, each request sent is
    a create-payment request whose method is one of [paymentMethods], whose
    amount is a number for which amount <= 0 is false and which is not NaN
    (the amount input is required and the button is disabled while
    amount <= 0), and whose member is 0 or one chosen in the member select
    during the run. *)
Theorem admin_requests_carry_offered_values
  (events : list PaymentsManagementRun.Event) (call : Mutation) :
  Forall PaymentsManagementRun.offered events →
  Post call ∈ (run PaymentsManagementRun.step PaymentsManagementRun.mounted events).2 →
  ∃ data, call = CreatePayment data
    ∧ (CreatePaymentData.member_id data = 0
       ∨ PaymentsManagementRun.ChangeMember (CreatePaymentData.member_id data) ∈ events)
    ∧ CreatePaymentData.method data ∈ PaymentsManagement.paymentMethods
    ∧ le (CreatePaymentData.amount data) (Num 0) = false
    ∧ CreatePaymentData.amount data ≠ NaN.
Proof.
  intros Hoffered Hin.
  assert (Hchosen : ∀ value, PaymentsManagementRun.ChangeMember value ∈ events →
                             value ∈ omap chosenMember events).
  { intros value Hvalue. apply list_elem_of_omap. eexists. split; [exact Hvalue | reflexivity]. }
  destruct (admin_run_settled (omap chosenMember events) events Hoffered Hchosen _
              (admin_mounted_settled _)) as (_ & Hsent & _).
  destruct (Hsent call Hin) as (data & -> & Hmember & Hmethod & kyat & Hamount & Hpositive).
  exists data. split; [reflexivity |]. split; [| split; [assumption |]].
  - apply elem_of_cons in Hmember as [Hzero | Hmember]; [left; exact Hzero | right].
    apply list_elem_of_omap in Hmember as (event & Hevent & Hchose).
    destruct event; try discriminate Hchose. injection Hchose as ->. exact Hevent.
  - rewrite Hamount. split; [| discriminate].
    simpl. apply Z.leb_gt. exact Hpositive.
Qed.

Lemma admin_requests_carry_offered_values_witness :
  ∃ data,
    CreatePayment {| CreatePaymentData.member_id := 12;
                     CreatePaymentData.amount := Num 50000;
                     CreatePaymentData.method := "KBZ Pay" |}
    = CreatePayment data
    ∧ (CreatePaymentData.member_id data = 0
       ∨ PaymentsManagementRun.ChangeMember (CreatePaymentData.member_id data)
         ∈ [PaymentsManagementRun.OpenModal;
            PaymentsManagementRun.ChangeMember 12;
            PaymentsManagementRun.ChooseMethod "KBZ Pay";
            PaymentsManagementRun.ChangeAmount (Num 50000);
            PaymentsManagementRun.Submit])
    ∧ CreatePaymentData.method data ∈ PaymentsManagement.paymentMethods
    ∧ le (CreatePaymentData.amount data) (Num 0) = false
    ∧ CreatePaymentData.amount data ≠ NaN.
Proof.
  apply (admin_requests_carry_offered_values
           [PaymentsManagementRun.OpenModal;
            PaymentsManagementRun.ChangeMember 12;
            PaymentsManagementRun.ChooseMethod "KBZ Pay";
            PaymentsManagementRun.ChangeAmount (Num 50000);
            PaymentsManagementRun.Submit]).
  - repeat constructor.
  - vm_compute. left.
Defined.

(** X3.  Both payment pages keep at most one create-payment request
    outstanding: along every run the requests sent exceed the answers
    received by at most one, and at most one handler is waiting. *)
Theorem one_request_at_a_time :
  (∀ (id : option Z) (events : list MemberPaymentRun.Event),
     let result := run MemberPaymentRun.step (MemberPaymentRun.mounted id) events in
     (length (filter isPost result.2)
      ≤ length (filter MemberPaymentRun.isAnswer events) + 1)%nat
     ∧ (length (waiting result.1) ≤ 1)%nat)
  ∧ (∀ events : list PaymentsManagementRun.Event,
       Forall PaymentsManagementRun.offered events →
       let result := run PaymentsManagementRun.step PaymentsManagementRun.mounted events in
       (length (filter isPost result.2)
        ≤ length (filter PaymentsManagementRun.isAnswer events) + 1)%nat
       ∧ (length (waiting result.1) ≤ 1)%nat).
Proof.
  split.
  - intros id events result. subst result.
    destruct (member_run_settled id events _ (member_mounted_settled id))
      as ((_ & _ & Hwaiting) & _ & Hcount).
    assert (Hone : (length (waiting (run MemberPaymentRun.step
                                       (MemberPaymentRun.mounted id) events).1) ≤ 1)%nat).
    { destruct Hwaiting as [[-> _] | (? & ? & ? & ? & -> & _)]; simpl; lia. }
    simpl in Hcount. split; [lia | exact Hone].
  - intros events Hoffered result. subst result.
    destruct (admin_run_settled (omap chosenMember events) events Hoffered) with
      (pg := PaymentsManagementRun.mounted) as ((_ & _ & Hwaiting) & _ & Hcount).
    { intros value Hvalue. apply list_elem_of_omap.
      eexists. split; [exact Hvalue | reflexivity]. }
    { apply admin_mounted_settled. }
    assert (Hone : (length (waiting (run PaymentsManagementRun.step
                                       PaymentsManagementRun.mounted events).1) ≤ 1)%nat).
    { destruct Hwaiting as [[-> _] | (? & ? & ? & ? & -> & _)]; simpl; lia. }
    simpl in Hcount. split; [lia | exact Hone].
Qed.

Lemma one_request_at_a_time_witness :
  (length (filter isPost
             (run PaymentsManagementRun.step PaymentsManagementRun.mounted
                [PaymentsManagementRun.ChangeAmount (Num 50000);
                 PaymentsManagementRun.Submit;
                 PaymentsManagementRun.Submit;
                 PaymentsManagementRun.Answer Resolved]).2)
   ≤ 1 + 1)%nat.
Proof.
  apply (proj2 one_request_at_a_time
           [PaymentsManagementRun.ChangeAmount (Num 50000);
            PaymentsManagementRun.Submit;
            PaymentsManagementRun.Submit;
            PaymentsManagementRun.Answer Resolved]).
  repeat constructor.
Defined.

(** ** One submission after another *)

Lemma sent_by_member : Post (paymentCall 7 (Num 50000) "Credit Card")
                       ∈ emitted (MemberPayment.submit (memberAt (Num 50000))).
Proof. vm_compute. left. Qed.

Lemma sent_by_admin : Post (paymentCall 12 (Num 50000) "Cash")
                      ∈ emitted (PaymentsManagement.submit (adminAt (Num 50000))).
Proof. vm_compute. left. Qed.

Lemma sent_by_membership_form :
  Post (CreateMembership
          (MembershipsManagement.createFormData (membershipFormAt "Monthly")))
  ∈ emitted (MembershipsManagement.submit (membershipFormAt "Monthly")).
Proof. vm_compute. left. Qed.

Lemma membership_submit_cases (st : MembershipsManagement.State) :
  MembershipsManagement.submit st = Finished st []
  ∨ (MembershipsManagement.isCreating st = false
     ∧ MembershipsManagement.formValid st = true
     ∧ MembershipsManagement.submit st = MembershipsManagement.handleCreateSubmit st).
Proof.
  unfold MembershipsManagement.submit, MembershipsManagement.submitDisabled.
  destruct (MembershipsManagement.isCreating st); [left; reflexivity |].
  destruct (MembershipsManagement.formValid st); [| left; reflexivity].
  right. repeat split.
Qed.

Lemma not_sent {State} (st : State) (call : Mutation) (h : Handler State) :
  h = Finished st [] → Post call ∈ emitted h → False.
Proof. intros -> Hin. inversion Hin. Qed.

(** X4.  When a submission that sent a request is rejected before anything
    else happens, the page is back in exactly the state in which the button
    was pressed, in the two payment forms and in the membership-creation
    form; the submission had sent that one request and nothing else. *)
Theorem rejection_restores_the_form (error : ApiError) :
  (∀ (st : MemberPayment.State) (call : Mutation),
     Post call ∈ emitted (MemberPayment.submit st) →
     (answered (MemberPayment.submit st) (Rejected error)
        (suspended (MemberPayment.submit st))).1 = st
     ∧ emitted (MemberPayment.submit st) = [Post call])
  ∧ (∀ (st : PaymentsManagement.State) (call : Mutation),
       Post call ∈ emitted (PaymentsManagement.submit st) →
       (answered (PaymentsManagement.submit st) (Rejected error)
          (suspended (PaymentsManagement.submit st))).1 = st
       ∧ emitted (PaymentsManagement.submit st) = [Post call])
  ∧ (∀ (st : MembershipsManagement.State) (call : Mutation),
       Post call ∈ emitted (MembershipsManagement.submit st) →
       (answered (MembershipsManagement.submit st) (Rejected error)
          (suspended (MembershipsManagement.submit st))).1 = st
       ∧ emitted (MembershipsManagement.submit st) = [Post call]).
Proof.
  split; [| split].
  - intros st call Hin.
    destruct (member_submit_cases st)
      as [(fx & Hsubmit & Hfx) | (id & resume & _ & _ & Hidle & _ & Hhandle & Hsubmit)].
    { rewrite Hsubmit in Hin. destruct (Hfx _ Hin). }
    rewrite Hsubmit in *. unfold MemberPayment.handleSubmit in *.
    destruct (MemberPayment.user_member_id st) as [[| p | p] |];
      try discriminate Hhandle; simpl in *;
      apply list_elem_of_singleton in Hin; injection Hin as ->;
      (split; [| reflexivity]); destruct st; simpl in *; subst; reflexivity.
  - intros st call Hin.
    destruct (admin_submit_cases st) as [Hsubmit | (Hidle & _ & Hsubmit)].
    { destruct (not_sent _ _ _ Hsubmit Hin). }
    rewrite Hsubmit in *. simpl in *.
    apply list_elem_of_singleton in Hin. injection Hin as ->.
    split; [| reflexivity]. destruct st; simpl in *; subst; reflexivity.
  - intros st call Hin.
    destruct (membership_submit_cases st) as [Hsubmit | (Hidle & _ & Hsubmit)].
    { destruct (not_sent _ _ _ Hsubmit Hin). }
    rewrite Hsubmit in *. simpl in *.
    apply list_elem_of_singleton in Hin. injection Hin as ->.
    split; [| reflexivity]. destruct st; simpl in *; subst; reflexivity.
Qed.

Lemma rejection_restores_the_form_witness :
  (answered (MemberPayment.submit (memberAt (Num 50000)))
     (Rejected {| response_data_message := None |})
     (suspended (MemberPayment.submit (memberAt (Num 50000))))).1
  = memberAt (Num 50000)
  ∧ (answered (PaymentsManagement.submit (adminAt (Num 50000)))
       (Rejected {| response_data_message := None |})
       (suspended (PaymentsManagement.submit (adminAt (Num 50000))))).1
    = adminAt (Num 50000)
  ∧ (answered (MembershipsManagement.submit (membershipFormAt "Monthly"))
       (Rejected {| response_data_message := None |})
       (suspended (MembershipsManagement.submit (membershipFormAt "Monthly")))).1
    = membershipFormAt "Monthly".
Proof.
  destruct (rejection_restores_the_form {| response_data_message := None |})
    as (Hmember & Hadmin & Hmembership).
  split; [| split].
  - exact (proj1 (Hmember _ _ sent_by_member)).
  - exact (proj1 (Hadmin _ _ sent_by_admin)).
  - exact (proj1 (Hmembership _ _ sent_by_membership_form)).
Defined.

(** ** A second submission while the first is outstanding *)

Section OutstandingRequest.
Context {State Event : Type}.
Variable step : Page State → Event → Page State * list Effect.
Variable isAnswer : Event → bool.
Variable allowed : Event → Prop.
Variable settled : Page State → Prop.
Variable submit : Event.

Hypothesis step_settled :
  ∀ pg event, settled pg → allowed event →
    settled (step pg event).1
    ∧ (length (filter isPost (step pg event).2) + length (waiting pg)
       ≤ length (waiting (step pg event).1) + (if isAnswer event then 1 else 0))%nat.

Lemma run_app (pg : Page State) (events events' : list Event) :
  (run step pg (events ++ events')).1 = (run step (run step pg events).1 events').1.
Proof.
  revert pg. induction events as [| event events IH]; intros pg; [reflexivity |].
  rewrite <- app_comm_cons, !run_cons. simpl. apply IH.
Qed.

Lemma run_stays_settled (events : list Event) :
  ∀ pg, settled pg → Forall allowed events → settled (run step pg events).1.
Proof.
  induction events as [| event events IH]; intros pg Hsettled Hallowed; [assumption |].
  apply Forall_cons in Hallowed as [Hevent Hallowed].
  rewrite run_cons. simpl. apply IH; [| assumption].
  apply (step_settled pg event Hsettled Hevent).
Qed.

Lemma run_keeps_waiting (events : list Event) :
  ∀ pg, settled pg → Forall allowed events →
    Forall (λ event, isAnswer event = false) events →
    waiting pg ≠ [] → waiting (run step pg events).1 ≠ [].
Proof.
  induction events as [| event events IH]; intros pg Hsettled Hallowed Hquiet Hbusy;
    [assumption |].
  apply Forall_cons in Hallowed as [Hevent Hallowed].
  apply Forall_cons in Hquiet as [Hnot Hquiet].
  rewrite run_cons. simpl.
  destruct (step_settled pg event Hsettled Hevent) as [Hnext Hcount].
  apply IH; try assumption.
  rewrite Hnot in Hcount.
  destruct (waiting pg); [contradiction |].
  destruct (waiting (step pg event).1); [simpl in Hcount; lia | discriminate].
Qed.

Lemma request_stays_outstanding (pg : Page State) (before meanwhile : list Event)
  (call : Mutation) :
  settled pg → allowed submit →
  Forall allowed before → Forall allowed meanwhile →
  Forall (λ event, isAnswer event = false) meanwhile →
  isAnswer submit = false →
  Post call ∈ (step (run step pg before).1 submit).2 →
  settled (run step pg (before ++ submit :: meanwhile)).1
  ∧ waiting (run step pg (before ++ submit :: meanwhile)).1 ≠ [].
Proof.
  intros Hsettled Hsubmit Hbefore Hmeanwhile Hquiet Hnot Hsent.
  assert (Hall : Forall allowed (before ++ submit :: meanwhile)).
  { apply Forall_app. split; [assumption |]. apply Forall_cons. split; assumption. }
  split; [apply run_stays_settled; assumption |].
  rewrite run_app, run_cons. simpl.
  pose proof (run_stays_settled before pg Hsettled Hbefore) as Hfirst.
  destruct (step_settled _ submit Hfirst Hsubmit) as [Hnext Hcount].
  apply run_keeps_waiting; try assumption.
  rewrite Hnot in Hcount.
  assert (Hposts : (1 ≤ length (filter isPost (step (run step pg before).1 submit).2))%nat).
  { assert (Hin : Post call ∈ filter isPost (step (run step pg before).1 submit).2)
      by (apply list_elem_of_filter; split; [exact I | exact Hsent]).
    destruct (filter isPost _); [inversion Hin | simpl; lia]. }
  destruct (waiting (step (run step pg before).1 submit).1);
    [simpl in Hcount; lia | discriminate].
Qed.

End OutstandingRequest.

Lemma membership_resume_cases (st0 st1 : MembershipsManagement.State) (fx : list Effect)
  (resume : Result → MembershipsManagement.State → MembershipsManagement.State * list Effect)
  (result : Result) (st : MembershipsManagement.State) :
  MembershipsManagement.handleCreateSubmit st0 = Awaiting st1 fx resume →
  (∀ call, Post call ∉ (resume result st).2)
  ∧ MembershipsManagement.isCreating (resume result st).1 = false.
Proof.
  unfold MembershipsManagement.handleCreateSubmit. intros Hresume.
  injection Hresume as _ _ <-. destruct result as [| error]; simpl;
    (split; [| reflexivity]);
    intros call Hin;
    repeat (apply elem_of_cons in Hin as [Hin | Hin]; [discriminate Hin |]);
    inversion Hin.
Qed.

Lemma membership_step_settled (pg : Page MembershipsManagement.State)
  (event : MembershipsManagementRun.Event) :
  membershipSettled pg →
  membershipSettled (MembershipsManagementRun.step pg event).1
  ∧ (length (filter isPost (MembershipsManagementRun.step pg event).2)
     + length (waiting pg)
     ≤ length (waiting (MembershipsManagementRun.step pg event).1)
       + (if MembershipsManagementRun.isAnswer event then 1 else 0))%nat.
Proof.
  destruct pg as [st pending]. intros Hwait. unfold membershipSettled in *. simpl in *.
  destruct event as [| | member | type | name | days | price | | result]; simpl.
  1-7: (split; [assumption | lia]).
  - (* Submit *)
    unfold called. simpl.
    destruct (membership_submit_cases st) as [Hsubmit | (Hidle & _ & Hsubmit)].
    + rewrite Hsubmit. simpl. split; [assumption | lia].
    + rewrite Hsubmit. simpl.
      destruct Hwait as [[-> _] | (? & ? & ? & ? & _ & _ & Hbusy)]; [| congruence].
      split; [| simpl; lia].
      right. eexists _, st, _, _. split; [reflexivity |]. split; reflexivity.
  - (* Answer *)
    unfold answer. simpl.
    destruct Hwait as [[-> Hidle] | (resume & st0 & st1 & fx & -> & Hresume & Hbusy)].
    + simpl. split; [left; split; [reflexivity | assumption] | lia].
    + pose proof (membership_resume_cases st0 st1 fx resume result st Hresume) as Hcases.
      destruct (resume result st) as [st' fx']. simpl in *.
      destruct Hcases as (Hfx & Hidle).
      split; [left; split; [reflexivity | assumption] |].
      rewrite (filter_isPost_nil _ Hfx). simpl. lia.
Qed.

Lemma member_busy_submit (id : option Z) (pg : Page MemberPayment.State) :
  memberSettled id pg ∧ waiting pg ≠ [] →
  MemberPayment.isProcessing (current pg) = true
  ∧ MemberPaymentRun.step pg MemberPaymentRun.Submit = (pg, []).
Proof.
  destruct pg as [st pending]. intros [(_ & _ & Hwait) Hbusy]. simpl in *.
  destruct Hwait as [[-> _] | (? & ? & ? & ? & _ & _ & Hflag)]; [contradiction |].
  split; [exact Hflag |].
  unfold called, MemberPayment.submit, MemberPayment.submitDisabled. simpl.
  rewrite Hflag. reflexivity.
Qed.

Lemma admin_busy_submit (ids : list Z) (pg : Page PaymentsManagement.State) :
  adminSettled ids pg ∧ waiting pg ≠ [] →
  PaymentsManagement.isCreating (current pg) = true
  ∧ PaymentsManagementRun.step pg PaymentsManagementRun.Submit = (pg, []).
Proof.
  destruct pg as [st pending]. intros [(_ & _ & Hwait) Hbusy]. simpl in *.
  destruct Hwait as [[-> _] | (? & ? & ? & ? & _ & _ & Hflag)]; [contradiction |].
  split; [exact Hflag |].
  unfold called, PaymentsManagement.submit, PaymentsManagement.submitDisabled. simpl.
  rewrite Hflag. reflexivity.
Qed.

Lemma membership_busy_submit (pg : Page MembershipsManagement.State) :
  membershipSettled pg ∧ waiting pg ≠ [] →
  MembershipsManagement.isCreating (current pg) = true
  ∧ MembershipsManagementRun.step pg MembershipsManagementRun.Submit = (pg, []).
Proof.
  destruct pg as [st pending]. intros [Hwait Hbusy]. unfold membershipSettled in *.
  simpl in *.
  destruct Hwait as [[-> _] | (? & ? & ? & ? & _ & _ & Hflag)]; [contradiction |].
  split; [exact Hflag |].
  unfold called, MembershipsManagement.submit, MembershipsManagement.submitDisabled. simpl.
  rewrite Hflag. reflexivity.
Qed.

(** X5.  On each of the three forms, once a submission has sent its
    request, the flag that disables the submit button stays raised and a
    further submission runs no handler and has no effect for as long as
    the request is unanswered, whatever is opened, closed, selected, typed
    or submitted in the meantime.  This holds along every run from the
    mounted page, the admin's payments page running with the method and
    filter buttons it renders.  The flag is the [isLoading] of
    [useMutation], a hook outside the sources read here: it is taken to be
    raised from the sending of the request until its answer, as section 5
    of the specification describes. *)
Theorem second_submission_sends_nothing :
  (∀ (id : option Z) (before meanwhile : list MemberPaymentRun.Event) (call : Mutation),
     let start := MemberPaymentRun.mounted id in
     Post call ∈ (MemberPaymentRun.step (run MemberPaymentRun.step start before).1
                    MemberPaymentRun.Submit).2 →
     Forall (λ event, MemberPaymentRun.isAnswer event = false) meanwhile →
     let now := (run MemberPaymentRun.step start
                   (before ++ MemberPaymentRun.Submit :: meanwhile)).1 in
     MemberPayment.isProcessing (current now) = true
     ∧ MemberPaymentRun.step now MemberPaymentRun.Submit = (now, []))
  ∧ (∀ (before meanwhile : list PaymentsManagementRun.Event) (call : Mutation),
       let start := PaymentsManagementRun.mounted in
       Forall PaymentsManagementRun.offered (before ++ meanwhile) →
       Post call ∈ (PaymentsManagementRun.step
                      (run PaymentsManagementRun.step start before).1
                      PaymentsManagementRun.Submit).2 →
       Forall (λ event, PaymentsManagementRun.isAnswer event = false) meanwhile →
       let now := (run PaymentsManagementRun.step start
                     (before ++ PaymentsManagementRun.Submit :: meanwhile)).1 in
       PaymentsManagement.isCreating (current now) = true
       ∧ PaymentsManagementRun.step now PaymentsManagementRun.Submit = (now, []))
  ∧ (∀ (before meanwhile : list MembershipsManagementRun.Event) (call : Mutation),
       let start := MembershipsManagementRun.mounted in
       Post call ∈ (MembershipsManagementRun.step
                      (run MembershipsManagementRun.step start before).1
                      MembershipsManagementRun.Submit).2 →
       Forall (λ event, MembershipsManagementRun.isAnswer event = false) meanwhile →
       let now := (run MembershipsManagementRun.step start
                     (before ++ MembershipsManagementRun.Submit :: meanwhile)).1 in
       MembershipsManagement.isCreating (current now) = true
       ∧ MembershipsManagementRun.step now MembershipsManagementRun.Submit = (now, [])).
Proof.
  split; [| split].
  - intros id before meanwhile call start Hsent Hquiet now. subst start now.
    apply (member_busy_submit id).
    apply (request_stays_outstanding MemberPaymentRun.step MemberPaymentRun.isAnswer
             (λ _, True) (memberSettled id) MemberPaymentRun.Submit) with (call := call);
      try assumption; try reflexivity; try exact I.
    + intros pg event Hsettled _.
      destruct (member_step_settled id pg event Hsettled) as (Hnext & _ & Hcount).
      split; assumption.
    + apply member_mounted_settled.
    + apply Forall_forall. intros; exact I.
    + apply Forall_forall. intros; exact I.
  - intros before meanwhile call start Hoffered Hsent Hquiet now. subst start now.
    apply Forall_app in Hoffered as [Hbefore Hmeanwhile].
    set (ids := omap chosenMember (before ++ meanwhile)).
    assert (Hallowed : ∀ events, Forall PaymentsManagementRun.offered events →
                         events ⊆ before ++ meanwhile → Forall (adminAllowed ids) events).
    { intros events Hevents Hsub. apply Forall_forall. intros event Hin. split.
      - exact (proj1 (Forall_forall _ _) Hevents event Hin).
      - intros value Hvalue. apply list_elem_of_omap. exists event.
        split; [apply Hsub; exact Hin | exact Hvalue]. }
    apply (admin_busy_submit ids).
    apply (request_stays_outstanding PaymentsManagementRun.step
             PaymentsManagementRun.isAnswer (adminAllowed ids) (adminSettled ids)
             PaymentsManagementRun.Submit) with (call := call);
      try assumption; try reflexivity.
    + intros pg event Hsettled [Hevent Hchosen].
      destruct (admin_step_settled ids pg event Hsettled Hevent Hchosen)
        as (Hnext & _ & Hcount).
      split; assumption.
    + apply admin_mounted_settled.
    + split; [exact I | discriminate].
    + apply Hallowed; [assumption |]. intros event Hin. apply elem_of_app. left. exact Hin.
    + apply Hallowed; [assumption |]. intros event Hin. apply elem_of_app. right. exact Hin.
  - intros before meanwhile call start Hsent Hquiet now. subst start now.
    apply membership_busy_submit.
    apply (request_stays_outstanding MembershipsManagementRun.step
             MembershipsManagementRun.isAnswer (λ _, True) membershipSettled
             MembershipsManagementRun.Submit) with (call := call);
      try assumption; try reflexivity; try exact I.
    + intros pg event Hsettled _.
      apply membership_step_settled; assumption.
    + left. split; reflexivity.
    + apply Forall_forall. intros; exact I.
    + apply Forall_forall. intros; exact I.
Qed.

Lemma second_submission_sends_nothing_witness :
  let member := (run MemberPaymentRun.step (MemberPaymentRun.mounted (Some 7))
                   ([MemberPaymentRun.OpenModal; MemberPaymentRun.ChangeAmount (Num 50000)]
                    ++ MemberPaymentRun.Submit
                       :: [MemberPaymentRun.ChangeAmount (Num 135000);
                           MemberPaymentRun.CloseModal])).1 in
  let admin := (run PaymentsManagementRun.step PaymentsManagementRun.mounted
                  ([PaymentsManagementRun.ChangeMember 12;
                    PaymentsManagementRun.ChangeAmount (Num 50000)]
                   ++ PaymentsManagementRun.Submit
                      :: [PaymentsManagementRun.ChooseMethod "Cash";
                          PaymentsManagementRun.ChangeAmount (Num 135000)])).1 in
  let membership := (run MembershipsManagementRun.step MembershipsManagementRun.mounted
                       ([MembershipsManagementRun.ChangeMember 12;
                         MembershipsManagementRun.SelectType
                           {| MembershipsManagement.label := "Monthly";
                              MembershipsManagement.duration := Num 30;
                              MembershipsManagement.fee := Num 50000 |}]
                        ++ MembershipsManagementRun.Submit
                           :: [MembershipsManagementRun.ChangeFee (Num 45000)])).1 in
  (MemberPayment.isProcessing (current member) = true
   ∧ MemberPaymentRun.step member MemberPaymentRun.Submit = (member, []))
  ∧ (PaymentsManagement.isCreating (current admin) = true
     ∧ PaymentsManagementRun.step admin PaymentsManagementRun.Submit = (admin, []))
  ∧ (MembershipsManagement.isCreating (current membership) = true
     ∧ MembershipsManagementRun.step membership MembershipsManagementRun.Submit
       = (membership, [])).
Proof.
  intros member admin membership.
  destruct second_submission_sends_nothing as (Hmember & Hadmin & Hmembership).
  split; [| split].
  - apply (Hmember (Some 7) _ _ (paymentCall 7 (Num 50000) "Credit Card")).
    + vm_compute. left.
    + repeat constructor.
  - apply (Hadmin _ _ (paymentCall 12 (Num 50000) "Credit Card")).
    + repeat constructor.
    + vm_compute. left.
    + repeat constructor.
  - apply (Hmembership _ _
             (CreateMembership
                {| CreateMembershipData.member_id := 12;
                   CreateMembershipData.type := "Monthly";
                   CreateMembershipData.duration := Num 30;
                   CreateMembershipData.fee := Num 50000 |})).
    + vm_compute. left.
    + repeat constructor.
Defined.

(** X6.  After a request is accepted, in whatever state the page then is,
    the form is reset and a submission of the reset form sends nothing: the
    payment forms hold amount 0, the membership form an empty type name. *)
Theorem accepted_form_cannot_be_resent :
  (∀ (st st' : MemberPayment.State) (call : Mutation),
     Post call ∈ emitted (MemberPayment.submit st) →
     let after := (answered (MemberPayment.submit st) Resolved st').1 in
     MemberPayment.submit after = Finished after [])
  ∧ (∀ (st st' : PaymentsManagement.State) (call : Mutation),
       Post call ∈ emitted (PaymentsManagement.submit st) →
       let after := (answered (PaymentsManagement.submit st) Resolved st').1 in
       PaymentsManagement.submit after = Finished after [])
  ∧ (∀ (st st' : MembershipsManagement.State) (call : Mutation),
       Post call ∈ emitted (MembershipsManagement.submit st) →
       let after := (answered (MembershipsManagement.submit st) Resolved st').1 in
       MembershipsManagement.submit after = Finished after []).
Proof.
  split; [| split].
  - intros st st' call Hin.
    destruct (member_submit_cases st)
      as [(fx & Hsubmit & Hfx) | (id & resume & _ & _ & _ & _ & Hhandle & Hsubmit)].
    { rewrite Hsubmit in Hin. destruct (Hfx _ Hin). }
    rewrite Hsubmit. unfold MemberPayment.handleSubmit in *.
    destruct (MemberPayment.user_member_id st) as [[| p | p] |];
      try discriminate Hhandle; simpl;
      unfold MemberPayment.submit, MemberPayment.submitDisabled; simpl;
      reflexivity.
  - intros st st' call Hin.
    destruct (admin_submit_cases st) as [Hsubmit | (_ & _ & Hsubmit)].
    { destruct (not_sent _ _ _ Hsubmit Hin). }
    rewrite Hsubmit. reflexivity.
  - intros st st' call Hin.
    destruct (membership_submit_cases st) as [Hsubmit | (_ & _ & Hsubmit)].
    { destruct (not_sent _ _ _ Hsubmit Hin). }
    rewrite Hsubmit. simpl.
    unfold MembershipsManagement.submit, MembershipsManagement.submitDisabled,
      MembershipsManagement.formValid.
    cbn [MembershipsManagement.isCreating MembershipsManagement.setCreateFormData
         MembershipsManagement.setShowCreateModal MembershipsManagement.setIsCreating
         MembershipsManagement.createFormData CreateMembershipData.member_id
         CreateMembershipData.type CreateMembershipData.duration CreateMembershipData.fee].
    rewrite optionValue_valid. reflexivity.
Qed.

Lemma accepted_form_cannot_be_resent_witness :
  emitted (MemberPayment.submit
             (answered (MemberPayment.submit (memberAt (Num 50000))) Resolved
                (suspended (MemberPayment.submit (memberAt (Num 50000))))).1) = []
  ∧ emitted (PaymentsManagement.submit
               (answered (PaymentsManagement.submit (adminAt (Num 50000))) Resolved
                  (suspended (PaymentsManagement.submit (adminAt (Num 50000))))).1) = []
  ∧ emitted (MembershipsManagement.submit
               (answered (MembershipsManagement.submit (membershipFormAt "Monthly")) Resolved
                  (suspended (MembershipsManagement.submit (membershipFormAt "Monthly")))).1)
    = [].
Proof.
  destruct accepted_form_cannot_be_resent as (Hmember & Hadmin & Hmembership).
  split; [| split].
  - rewrite (Hmember _ (suspended (MemberPayment.submit (memberAt (Num 50000)))) _
               sent_by_member). reflexivity.
  - rewrite (Hadmin _ (suspended (PaymentsManagement.submit (adminAt (Num 50000)))) _
               sent_by_admin). reflexivity.
  - rewrite (Hmembership _
               (suspended (MembershipsManagement.submit (membershipFormAt "Monthly"))) _
               sent_by_membership_form). reflexivity.
Defined.

(** X7.  With the amount field emptied ([parseFloat] gives NaN) the
    member's form, when idle and in a session with a member number, sends
    a create-payment request with amount NaN; the admin's form, whose
    amount input is required, sends nothing in that state. *)
Theorem emptied_amount_is_submitted_by_the_member_form :
  (∀ (st : MemberPayment.State) (id : Z),
     MemberPayment.isProcessing st = false →
     MemberPayment.user_member_id st = Some id → id ≠ 0 →
     emitted (MemberPayment.submit (MemberPayment.amountChanged NaN st))
     = [Post (CreatePayment
                {| CreatePaymentData.member_id := id;
                   CreatePaymentData.amount := NaN;
                   CreatePaymentData.method :=
                     MemberPayment.method (MemberPayment.formData st) |})])
  ∧ (∀ st : PaymentsManagement.State,
       PaymentsManagement.submit (PaymentsManagement.amountChanged NaN st)
       = Finished (PaymentsManagement.amountChanged NaN st) []).
Proof.
  split.
  - intros st id Hidle Hid Hne.
    unfold MemberPayment.submit, MemberPayment.submitDisabled, MemberPayment.formValid.
    simpl. rewrite Hidle. simpl.
    unfold MemberPayment.handleSubmit. simpl. rewrite Hid.
    destruct id as [| p | p]; [contradiction | reflexivity | reflexivity].
  - intros st.
    unfold PaymentsManagement.submit, PaymentsManagement.submitDisabled,
      PaymentsManagement.formValid. simpl.
    rewrite andb_false_r.
    destruct (PaymentsManagement.isCreating st); reflexivity.
Qed.

Lemma emptied_amount_is_submitted_by_the_member_form_witness :
  emitted (MemberPayment.submit (MemberPayment.amountChanged NaN (memberAt (Num 50000))))
  = [Post (paymentCall 7 NaN "Credit Card")].
Proof.
  apply (proj1 emptied_amount_is_submitted_by_the_member_form (memberAt (Num 50000)) 7).
  - reflexivity.
  - reflexivity.
  - discriminate.
Defined.

(** ** Totals, counts and filters *)

Lemma amounts_whole (ps : list Payment.t) :
  Forall wholeAmount ps → Payment.amount <$> ps = Num <$> (kyatOf <$> ps).
Proof.
  induction 1 as [| p ps [z Hz] _ IH]; [reflexivity |].
  rewrite !fmap_cons, IH. f_equal. unfold kyatOf.
  destruct (Payment.amount p); simpl in *; congruence.
Qed.

Lemma sumKyat_permutation (l l' : list Z) : l ≡ₚ l' → sumKyat l = sumKyat l'.
Proof. induction 1; simpl in *; lia. Qed.

Lemma sumMagnitudes_permutation (l l' : list Z) :
  l ≡ₚ l' → sumMagnitudes l = sumMagnitudes l'.
Proof. induction 1; simpl in *; lia. Qed.

Lemma sumMagnitudes_nonneg (l : list Z) : 0 ≤ sumMagnitudes l.
Proof. induction l; simpl; lia. Qed.

Lemma revenue_exact (ps : list Payment.t) :
  Forall wholeAmount ps →
  sumMagnitudes (kyatOf <$> ps) ≤ 2 ^ 53 →
  foldl addAmount (Num 0) ps = Num (sumKyat (kyatOf <$> ps)).
Proof.
  intros Hwhole Hbound.
  rewrite (foldl_addAmount_exact ps _ 0 (amounts_whole ps Hwhole)) by (simpl; lia).
  reflexivity.
Qed.

(** X8.  For whole-Kyat amounts with magnitudes adding up to at most 2^53,
    the total revenue and the total paid depend only on the collection of
    amounts: any list with the same amounts in another order, under
    whatever statuses, gives the same total. *)
Theorem totals_ignore_order_and_status (ps ps' : list Payment.t) :
  Forall wholeAmount ps →
  sumMagnitudes (kyatOf <$> ps) ≤ 2 ^ 53 →
  Payment.amount <$> ps' ≡ₚ Payment.amount <$> ps →
  PaymentsManagement.totalRevenue (Some ps') = PaymentsManagement.totalRevenue (Some ps)
  ∧ MemberPayment.totalPaid (Some ps') = MemberPayment.totalPaid (Some ps).
Proof.
  intros Hwhole Hbound Hperm.
  assert (Hwhole' : Forall wholeAmount ps').
  { apply Forall_forall. intros p Hp.
    assert (Hin : Payment.amount p ∈ Payment.amount <$> ps)
      by (rewrite <- Hperm; apply list_elem_of_fmap; eauto).
    apply list_elem_of_fmap in Hin as (q & Heq & Hq).
    unfold wholeAmount. rewrite Heq.
    exact (proj1 (Forall_forall _ _) Hwhole q Hq). }
  assert (Hkyat : kyatOf <$> ps' ≡ₚ kyatOf <$> ps).
  { change kyatOf with ((default 0 ∘ wholeKyat) ∘ Payment.amount).
    rewrite !(list_fmap_compose Payment.amount). rewrite Hperm. reflexivity. }
  unfold PaymentsManagement.totalRevenue, MemberPayment.totalPaid.
  rewrite (revenue_exact ps Hwhole Hbound).
  rewrite (revenue_exact ps' Hwhole')
    by (rewrite (sumMagnitudes_permutation _ _ Hkyat); exact Hbound).
  rewrite (sumKyat_permutation _ _ Hkyat). split; reflexivity.
Qed.

Lemma totals_ignore_order_and_status_witness :
  PaymentsManagement.totalRevenue
    (Some [paymentOf 3 (Num 480000) "2024-02-12" "completed";
           paymentOf 1 (Num 50000) "2024-01-05" "completed"])
  = PaymentsManagement.totalRevenue
      (Some [paymentOf 1 (Num 50000) "2024-01-05" "completed";
             paymentOf 3 (Num 480000) "2024-02-12" "failed"]).
Proof.
  apply (totals_ignore_order_and_status
           [paymentOf 1 (Num 50000) "2024-01-05" "completed";
            paymentOf 3 (Num 480000) "2024-02-12" "failed"]
           [paymentOf 3 (Num 480000) "2024-02-12" "completed";
            paymentOf 1 (Num 50000) "2024-01-05" "completed"]).
  - repeat constructor; eexists; reflexivity.
  - vm_compute. discriminate.
  - simpl. apply Permutation_swap.
Defined.

Lemma filter_sums (P : Payment.t → Prop) `{!∀ p, Decision (P p)} (ps : list Payment.t) :
  Forall (λ p, 0 ≤ kyatOf p) ps →
  0 ≤ sumKyat (kyatOf <$> filter P ps) ≤ sumKyat (kyatOf <$> ps)
  ∧ sumMagnitudes (kyatOf <$> filter P ps) ≤ sumMagnitudes (kyatOf <$> ps)
  ∧ sumMagnitudes (kyatOf <$> ps) = sumKyat (kyatOf <$> ps).
Proof.
  induction 1 as [| p ps Hp _ IH]; [simpl; lia |].
  rewrite filter_cons. destruct (decide (P p)); rewrite ?fmap_cons;
    unfold sumKyat, sumMagnitudes in *; simpl foldr; lia.
Qed.

(** X9.  For non-negative whole-Kyat amounts adding up to at most 2^53,
    the monthly revenue of the dashboard is the exact sum of this month's
    payments and never exceeds the total revenue of the payments page. *)
Theorem monthly_revenue_within_total
  (newDate : string → Date) (now : Date) (ps : list Payment.t) :
  Forall wholeAmount ps →
  Forall (λ p, 0 ≤ kyatOf p) ps →
  sumKyat (kyatOf <$> ps) ≤ 2 ^ 53 →
  ∃ month total,
    AdminDashboard.thisMonthRevenue newDate now ps = Num month
    ∧ PaymentsManagement.totalRevenue (Some ps) = Num total
    ∧ month = sumKyat (kyatOf <$> MemberPayment.thisMonthPayments newDate now (Some ps))
    ∧ 0 ≤ month ≤ total.
Proof.
  intros Hwhole Hnonneg Hbound.
  destruct (filter_sums (AdminDashboard.inThisMonth newDate now) ps Hnonneg)
    as (Hsum & Hmagnitudes & Hsame).
  exists (sumKyat (kyatOf <$> filter (AdminDashboard.inThisMonth newDate now) ps)),
    (sumKyat (kyatOf <$> ps)).
  unfold AdminDashboard.thisMonthRevenue, PaymentsManagement.totalRevenue.
  rewrite (revenue_exact ps Hwhole) by lia.
  rewrite revenue_exact.
  - rewrite orElse_zero. repeat split; try reflexivity; lia.
  - apply Forall_forall. intros p Hp. apply list_elem_of_filter in Hp as [_ Hp].
    exact (proj1 (Forall_forall _ _) Hwhole p Hp).
  - lia.
Qed.

Lemma monthly_revenue_within_total_witness :
  ∃ month total,
    AdminDashboard.thisMonthRevenue
      (λ s, if decide (s = "2024-02-11") then ValidDate 2024 1 else InvalidDate)
      (ValidDate 2024 1)
      [paymentOf 1 (Num 50000) "2024-01-05" "completed";
       paymentOf 2 (Num 135000) "2024-02-11" "pending"] = Num month
    ∧ month = 135000 ∧ total = 185000 ∧ 0 ≤ month ≤ total.
Proof.
  destruct (monthly_revenue_within_total
              (λ s, if decide (s = "2024-02-11") then ValidDate 2024 1 else InvalidDate)
              (ValidDate 2024 1)
              [paymentOf 1 (Num 50000) "2024-01-05" "completed";
               paymentOf 2 (Num 135000) "2024-02-11" "pending"])
    as (month & total & Hmonth & Htotal & Hsum & Hle).
  - repeat constructor; eexists; reflexivity.
  - repeat constructor; vm_compute; discriminate.
  - vm_compute. discriminate.
  - exists month, total. split; [exact Hmonth |].
    injection Htotal as <-. split; [exact Hsum |]. split; [reflexivity | exact Hle].
Defined.

Lemma disjoint_counts {A} (P Q : A → Prop) `{!∀ x, Decision (P x)} `{!∀ x, Decision (Q x)}
  (l : list A) :
  (∀ x, P x → Q x → False) →
  (length (filter P l) + length (filter Q l) ≤ length l)%nat
  ∧ ((length (filter P l) + length (filter Q l) = length l)%nat
     ↔ Forall (λ x, P x ∨ Q x) l).
Proof.
  intros Hdisjoint. induction l as [| x l [IHle IHeq]].
  - simpl. split; [lia |]. split; [constructor | reflexivity].
  - rewrite !filter_cons.
    destruct (decide (P x)) as [HP | HP], (decide (Q x)) as [HQ | HQ]; simpl.
    + destruct (Hdisjoint x HP HQ).
    + split; [lia |]. rewrite Forall_cons. split.
      * intros Heq. split; [left; exact HP | apply IHeq; lia].
      * intros [_ Hall]. apply IHeq in Hall. lia.
    + split; [lia |]. rewrite Forall_cons. split.
      * intros Heq. split; [right; exact HQ | apply IHeq; lia].
      * intros [_ Hall]. apply IHeq in Hall. lia.
    + split; [lia |]. rewrite Forall_cons. split.
      * intros Heq. lia.
      * intros [[? | ?] _]; contradiction.
Qed.

(** X10.  The Completed and Pending cards count disjoint payments: their
    sum is at most the number of payments, and equal to it exactly when
    every payment is completed or pending.  The same holds for the Active
    and Expired cards of the memberships page. *)
Theorem status_counts_are_disjoint :
  (∀ ps : list Payment.t,
     (PaymentsManagement.completedCount (Some ps)
      + PaymentsManagement.pendingCount (Some ps) ≤ length ps)%nat
     ∧ ((PaymentsManagement.completedCount (Some ps)
         + PaymentsManagement.pendingCount (Some ps) = length ps)%nat
        ↔ Forall (λ p, Payment.status p = "completed" ∨ Payment.status p = "pending") ps))
  ∧ (∀ ms : list Membership.t,
       (MembershipsManagement.activeCount (Some ms)
        + MembershipsManagement.expiredCount (Some ms) ≤ length ms)%nat
       ∧ ((MembershipsManagement.activeCount (Some ms)
           + MembershipsManagement.expiredCount (Some ms) = length ms)%nat
          ↔ Forall (λ m, Membership.status m = "active" ∨ Membership.status m = "expired") ms)).
Proof.
  split; intros l; simpl; apply disjoint_counts; intros x H1 H2;
    rewrite H1 in H2; discriminate H2.
Qed.

(** X11.  Under the filter "all" the payments page lists every payment;
    under any other filter it lists exactly the payments of that status;
    the list is always a sublist of the loaded payments, empty while they
    are not loaded; and the lists under "completed" and "pending" have the
    lengths shown on the Completed and Pending cards. *)
Theorem filtered_payments_match_the_cards (st : PaymentsManagement.State) :
  (PaymentsManagement.statusFilter st = "all" →
   PaymentsManagement.getFilteredPayments st = default [] (PaymentsManagement.payments st))
  ∧ (PaymentsManagement.statusFilter st ≠ "all" →
     ∀ p, p ∈ PaymentsManagement.getFilteredPayments st
          ↔ p ∈ default [] (PaymentsManagement.payments st)
            ∧ Payment.status p = PaymentsManagement.statusFilter st)
  ∧ PaymentsManagement.getFilteredPayments st
    `sublist_of` default [] (PaymentsManagement.payments st)
  ∧ length (PaymentsManagement.getFilteredPayments
              (PaymentsManagementRun.setStatusFilter "completed" st))
    = PaymentsManagement.completedCount (PaymentsManagement.payments st)
  ∧ length (PaymentsManagement.getFilteredPayments
              (PaymentsManagementRun.setStatusFilter "pending" st))
    = PaymentsManagement.pendingCount (PaymentsManagement.payments st).
Proof.
  unfold PaymentsManagement.getFilteredPayments, PaymentsManagement.completedCount,
    PaymentsManagement.pendingCount.
  destruct st as [[ps |] creating modal filter form]; simpl.
  - split; [intros ->; reflexivity |].
    split.
    { intros Hfilter p. destruct (decide (filter = "all")); [contradiction |].
      rewrite list_elem_of_filter. tauto. }
    split; [| split; reflexivity].
    destruct (decide (filter = "all")); [reflexivity | apply sublist_filter].
  - split; [reflexivity |].
    split; [| split; [reflexivity | split; reflexivity]].
    intros _ p. split; [intros Hin | intros [Hin _]]; inversion Hin.
Qed.

Lemma filtered_payments_match_the_cards_witness :
  paymentOf 2 (Num 135000) "2024-02-11" "pending"
  ∈ PaymentsManagement.getFilteredPayments (adminAt (Num 0))
  ∧ PaymentsManagement.getFilteredPayments
      (PaymentsManagementRun.setStatusFilter "all" (adminAt (Num 0)))
    = default [] (PaymentsManagement.payments (adminAt (Num 0))).
Proof.
  destruct (filtered_payments_match_the_cards (adminAt (Num 0))) as (_ & Hshown & _).
  destruct (filtered_payments_match_the_cards
              (PaymentsManagementRun.setStatusFilter "all" (adminAt (Num 0))))
    as (Hall & _).
  split.
  - apply Hshown; [discriminate |]. split; [right; left | reflexivity].
  - apply Hall. reflexivity.
Defined.

(** ** Receipts *)

Lemma receipts_step (st : Receipts.State) (event : Receipts.Event) :
  Receipts.ofPage event →
  (Receipts.selectedReceipt (Receipts.step st event).1
   = match Receipts.generated event with
     | Some receipt => Some receipt
     | None => Receipts.selectedReceipt st
     end)
  ∧ (Receipts.showReceiptModal (Receipts.step st event).1 = true →
     is_Some (Receipts.generated event)
     ∨ Receipts.showReceiptModal st = true ∧ event ≠ Receipts.Close)
  ∧ (∀ message, ShowError message ∈ (Receipts.step st event).2 →
       message = "Failed to generate receipt"
       ∧ (Receipts.step st event).1 = st).
Proof.
  destruct event as [sent [receipt | error] |]; simpl.
  - intros [Hsent | Hsent]; rewrite Hsent; simpl;
      (split; [reflexivity |]; split; [eauto |];
       intros message Hin; apply list_elem_of_singleton in Hin; discriminate Hin).
  - intros [Hsent | Hsent]; rewrite Hsent; simpl;
      (split; [reflexivity |]; split; [intros ?; right; split; [assumption | discriminate] |];
       intros message Hin; apply list_elem_of_singleton in Hin; injection Hin as ->;
       split; reflexivity).
  - intros _. split; [reflexivity |]. split; [discriminate |].
    intros message Hin. inversion Hin.
Qed.

Lemma last_cons_or {A} (x : A) (l : list A) :
  last (x :: l) = match last l with Some y => Some y | None => Some x end.
Proof.
  revert x. induction l as [| y l IH]; intros x; [reflexivity |].
  change (last (x :: y :: l)) with (last (y :: l)).
  rewrite (IH y). destruct (last l); reflexivity.
Qed.

(** X12.  Along every sequence of receipt requests answered and modal
    closings on either page, starting with no receipt: the selected receipt
    is the one of the latest accepted request (closing the modal and failed
    requests leave it in place), the modal is never open without a receipt,
    and every error toast reads "Failed to generate receipt", whatever the
    backend answered. *)
Theorem receipt_modal_shows_latest_receipt (events : list Receipts.Event) :
  Forall Receipts.ofPage events →
  let final := (Receipts.run Receipts.initial events).1 in
  Receipts.selectedReceipt final = last (omap Receipts.generated events)
  ∧ (Receipts.showReceiptModal final = true → is_Some (Receipts.selectedReceipt final))
  ∧ ∀ message, ShowError message ∈ (Receipts.run Receipts.initial events).2 →
      message = "Failed to generate receipt".
Proof.
  intros Hpage.
  cut (∀ st,
         let final := (Receipts.run st events).1 in
         (Receipts.showReceiptModal st = true → is_Some (Receipts.selectedReceipt st)) →
         Receipts.selectedReceipt final
         = match last (omap Receipts.generated events) with
           | Some receipt => Some receipt
           | None => Receipts.selectedReceipt st
           end
         ∧ (Receipts.showReceiptModal final = true → is_Some (Receipts.selectedReceipt final))
         ∧ ∀ message, ShowError message ∈ (Receipts.run st events).2 →
             message = "Failed to generate receipt").
  { intros Hgeneral. specialize (Hgeneral Receipts.initial). simpl in Hgeneral.
    destruct Hgeneral as (Hselected & Hshown & Herrors); [discriminate |].
    split; [| split; assumption].
    rewrite Hselected. destruct (last _); reflexivity. }
  induction Hpage as [| event events Hevent _ IH]; intros st final Hopen.
  - subst final. simpl. split; [reflexivity |]. split; [assumption |].
    intros message Hin. inversion Hin.
  - subst final. simpl.
    destruct (receipts_step st event Hevent) as (Hselected & Hshown & Herror).
    destruct (Receipts.step st event) as [st' fx] eqn:Hstep. simpl in *.
    specialize (IH st').
    destruct (Receipts.run st' events) as [st'' fx'] eqn:Hrun. simpl in *.
    destruct IH as (IHselected & IHshown & IHerrors).
    { intros Hmodal. rewrite Hselected.
      destruct (Hshown Hmodal) as [[receipt Hreceipt] | [Hbefore _]].
      - rewrite Hreceipt. eauto.
      - destruct (Receipts.generated event); eauto. }
    split; [| split; [assumption |]].
    + rewrite IHselected, Hselected.
      change (omap Receipts.generated (event :: events))
        with (match Receipts.generated event with
              | Some receipt => receipt :: omap Receipts.generated events
              | None => omap Receipts.generated events
              end).
      destruct (Receipts.generated event) as [receipt |]; [| reflexivity].
      rewrite last_cons_or. destruct (last _); reflexivity.
    + intros message Hin. apply elem_of_app in Hin as [Hin | Hin].
      * apply (Herror message Hin).
      * apply (IHerrors message Hin).
Qed.

Lemma receipt_modal_shows_latest_receipt_witness :
  Receipts.selectedReceipt
    (Receipts.run Receipts.initial
       [Receipts.Answered (Receipts.handleGenerateReceipt 1)
          (Receipts.Generated (receiptOf "R-1" None));
        Receipts.Close;
        Receipts.Answered (Receipts.handleGenerateReceipt 2)
          (Receipts.Failed {| response_data_message := Some "Payment not found" |})]).1
  = Some (receiptOf "R-1" None).
Proof.
  apply (receipt_modal_shows_latest_receipt
           [Receipts.Answered (Receipts.handleGenerateReceipt 1)
              (Receipts.Generated (receiptOf "R-1" None));
            Receipts.Close;
            Receipts.Answered (Receipts.handleGenerateReceipt 2)
              (Receipts.Failed {| response_data_message := Some "Payment not found" |})]).
  repeat constructor; simpl; auto.
Defined.

(** X13.  Whenever the admin's receipt modal shows the membership row the
    member's modal shows its plan row; the two differ exactly when the
    receipt's membership_type is missing or empty, where only the member's
    modal shows the row; for 'N/A' neither shows it. *)
Theorem receipt_membership_row (receipt : Receipts.Receipt) :
  (Receipts.adminShowsMembership receipt = true → Receipts.memberShowsPlan receipt = true)
  ∧ (Receipts.adminShowsMembership receipt ≠ Receipts.memberShowsPlan receipt
     ↔ Receipts.membership_type receipt = None
       ∨ Receipts.membership_type receipt = Some "")
  ∧ (Receipts.membership_type receipt = Some "N/A" →
     Receipts.adminShowsMembership receipt = false
     ∧ Receipts.memberShowsPlan receipt = false).
Proof.
  unfold Receipts.adminShowsMembership, Receipts.memberShowsPlan.
  destruct (Receipts.membership_type receipt) as [type |].
  - destruct (decide (type = "")) as [-> | Hempty];
      [| destruct (decide (type = "N/A")) as [-> | Hna]].
    + split; [discriminate |]. split; [| discriminate].
      split; [auto | intros _; discriminate].
    + split; [discriminate |]. split; [| intros _; split; reflexivity].
      split; [intros Hne; destruct Hne; reflexivity | intros [? | ?]; discriminate].
    + rewrite !(bool_decide_eq_false_2 _ Hempty), !(bool_decide_eq_false_2 _ Hna). simpl.
      split; [reflexivity |]. split; [| congruence].
      split; [intros Hne; destruct Hne; reflexivity | intros [? | ?]; congruence].
  - split; [discriminate |]. split; [| discriminate].
    split; [auto | intros _; discriminate].
Qed.

Lemma receipt_membership_row_witness :
  Receipts.memberShowsPlan (receiptOf "R-1" (Some "Annual")) = true
  ∧ Receipts.adminShowsMembership (receiptOf "R-2" (Some "N/A")) = false.
Proof.
  split.
  - apply (proj1 (receipt_membership_row (receiptOf "R-1" (Some "Annual")))). reflexivity.
  - apply (proj2 (proj2 (receipt_membership_row (receiptOf "R-2" (Some "N/A"))))).
    reflexivity.
Defined.

(** ** Registration and login *)

(** X14.  After any sequence of field changes and role clicks on the
    registration form, every field holds the value last written to it, or
    its initial value if it was never written: a role click writes the role
    and clears nothing, so fields typed under an earlier role stay in the
    data. *)
Theorem register_fields_keep_last_write (events : list Register.Event) (name : string) :
  ∀ formData : gmap string string,
    foldl Register.step formData events !! name
    = match last (omap (Register.written name) events) with
      | Some value => Some value
      | None => formData !! name
      end.
Proof.
  induction events as [| event events IH]; intros formData; [reflexivity |].
  change (foldl Register.step formData (event :: events))
    with (foldl Register.step (Register.step formData event) events).
  rewrite IH.
  change (omap (Register.written name) (event :: events))
    with (match Register.written name event with
          | Some value => value :: omap (Register.written name) events
          | None => omap (Register.written name) events
          end).
  destruct event as [name' value | role]; simpl;
    unfold Register.handleChange, Register.roleClicked.
  - destruct (decide (name' = name)) as [-> | Hne].
    + rewrite last_cons_or, lookup_insert_eq. destruct (last _); reflexivity.
    + rewrite lookup_insert_ne by assumption. reflexivity.
  - destruct (decide ("role" = name)) as [<- | Hne].
    + rewrite last_cons_or, lookup_insert_eq. destruct (last _); reflexivity.
    + rewrite lookup_insert_ne by assumption. reflexivity.
Qed.



(** ** The dashboard *)

(** X16.  [loadData] always lowers the loading flag.  When all four
    requests succeed the dashboard holds exactly the four lists received;
    when any one fails it holds none of them, so the freshly mounted
    dashboard shows 0 members, 0 check-ins today, 0 Kyats and 0 active
    memberships, and no recent members or payments. *)
Theorem dashboard_loads_all_or_nothing
  (newDate : string → Date) (now : Date) (toDateString : string → string) (today : string)
  (membersData : AdminDashboardData.Fetched (list AdminDashboardData.Member))
  (attendanceData : AdminDashboardData.Fetched (list AdminDashboardData.Attendance))
  (paymentsData : AdminDashboardData.Fetched (list Payment.t))
  (membershipsData : AdminDashboardData.Fetched (list Membership.t)) :
  let loaded := AdminDashboardData.loadData membersData attendanceData paymentsData
                  membershipsData AdminDashboardData.initial in
  AdminDashboardData.isLoading loaded = false
  ∧ (allLoaded membersData attendanceData paymentsData membershipsData →
     membersData = AdminDashboardData.Loaded (AdminDashboardData.members loaded)
     ∧ attendanceData = AdminDashboardData.Loaded (AdminDashboardData.attendance loaded)
     ∧ paymentsData = AdminDashboardData.Loaded (AdminDashboardData.payments loaded)
     ∧ membershipsData = AdminDashboardData.Loaded (AdminDashboardData.memberships loaded))
  ∧ (¬ allLoaded membersData attendanceData paymentsData membershipsData →
     AdminDashboardData.stats newDate now toDateString today loaded
     = (0%nat, 0%nat, Num 0, 0%nat)
     ∧ AdminDashboardData.recentMembers loaded = []
     ∧ AdminDashboardData.recentPayments loaded = []).
Proof.
  unfold allLoaded.
  destruct membersData as [ms |], attendanceData as [att |], paymentsData as [ps |],
    membershipsData as [mss |]; simpl;
    (split; [reflexivity |]; split;
     [ intros ([? ?] & [? ?] & [? ?] & [? ?]); try discriminate; repeat split
     | intros Hnot; try (repeat split; reflexivity);
       destruct Hnot; repeat split; eauto ]).
Qed.

Lemma dashboard_loads_all_or_nothing_witness :
  AdminDashboardData.stats (λ _, InvalidDate) (ValidDate 2024 1) (λ s, s) "2024-02-11"
    (AdminDashboardData.loadData
       (AdminDashboardData.Loaded
          [{| AdminDashboardData.member_id := 7;
              AdminDashboardData.member_name := "Aye Aye" |}])
       AdminDashboardData.NotLoaded
       (AdminDashboardData.Loaded [paymentOf 1 (Num 50000) "2024-01-05" "completed"])
       (AdminDashboardData.Loaded [membershipOf 1 "active"])
       AdminDashboardData.initial)
  = (0%nat, 0%nat, Num 0, 0%nat).
Proof.
  apply (dashboard_loads_all_or_nothing (λ _, InvalidDate) (ValidDate 2024 1) (λ s, s)
           "2024-02-11").
  intros (_ & [x Hx] & _). discriminate Hx.
Defined.

(** ** Editing and deleting memberships *)

Lemma edits_keep_selection (edits : list MembershipsEdit.Edit) :
  ∀ st, MembershipsEdit.selectedMembership (foldl MembershipsEdit.edit st edits)
        = MembershipsEdit.selectedMembership st.
Proof.
  induction edits as [| e edits IH]; intros st; [reflexivity |].
  simpl. rewrite IH. destruct e; reflexivity.
Qed.

(** X17.  Whatever is edited in the edit form after [openEditModal], the
    update request goes to the membership whose Edit button was pressed; with
    no edit it carries that membership's own status and end date. *)
Theorem update_targets_opened_membership
  (st : MembershipsEdit.State) (membership : Membership.t)
  (edits : list MembershipsEdit.Edit) :
  (∃ data,
     MembershipsEdit.request
       (MembershipsEdit.handleEditSubmit
          (foldl MembershipsEdit.edit (MembershipsEdit.openEditModal membership st) edits))
     = Some (MembershipsEdit.UpdateMembership (Membership.id membership) data))
  ∧ MembershipsEdit.request
      (MembershipsEdit.handleEditSubmit (MembershipsEdit.openEditModal membership st))
    = Some (MembershipsEdit.UpdateMembership (Membership.id membership)
              {| MembershipsEdit.status := Membership.status membership;
                 MembershipsEdit.end_date := Some (Membership.end_date membership) |}).
Proof.
  split; [| reflexivity].
  unfold MembershipsEdit.handleEditSubmit. rewrite edits_keep_selection. simpl. eauto.
Qed.

(** X18.  With no membership selected, [handleEditSubmit] and
    [handleDelete] return without a request.  Once a delete or an update is
    accepted, in whatever state the page then is, the selection is cleared
    and its modal closed, so both handlers return without a request, even
    if the other modal has been opened meanwhile (that modal stays as it
    was).  A rejection changes nothing. *)
Theorem edit_and_delete_need_a_selection (st st' : MembershipsEdit.State) :
  (MembershipsEdit.selectedMembership st = None →
   MembershipsEdit.handleEditSubmit st = MembershipsEdit.Returned
   ∧ MembershipsEdit.handleDelete st = MembershipsEdit.Returned)
  ∧ (let after := MembershipsEdit.settled (MembershipsEdit.handleDelete st) Resolved st' in
     is_Some (MembershipsEdit.selectedMembership st) →
     MembershipsEdit.handleDelete after = MembershipsEdit.Returned
     ∧ MembershipsEdit.handleEditSubmit after = MembershipsEdit.Returned
     ∧ MembershipsEdit.showDeleteModal after = false
     ∧ MembershipsEdit.showEditModal after = MembershipsEdit.showEditModal st')
  ∧ (let after := MembershipsEdit.settled (MembershipsEdit.handleEditSubmit st) Resolved st' in
     is_Some (MembershipsEdit.selectedMembership st) →
     MembershipsEdit.handleEditSubmit after = MembershipsEdit.Returned
     ∧ MembershipsEdit.handleDelete after = MembershipsEdit.Returned
     ∧ MembershipsEdit.showEditModal after = false
     ∧ MembershipsEdit.showDeleteModal after = MembershipsEdit.showDeleteModal st')
  ∧ (∀ error,
       MembershipsEdit.settled (MembershipsEdit.handleDelete st) (Rejected error) st' = st'
       ∧ MembershipsEdit.settled (MembershipsEdit.handleEditSubmit st) (Rejected error) st' = st').
Proof.
  unfold MembershipsEdit.handleEditSubmit, MembershipsEdit.handleDelete.
  cbv zeta.
  split; [intros ->; split; reflexivity |].
  split; [| split].
  - intros [m Hm]. rewrite Hm. simpl. repeat split.
  - intros [m Hm]. rewrite Hm. simpl. repeat split.
  - intros error. destruct (MembershipsEdit.selectedMembership st); split; reflexivity.
Qed.

Lemma edit_and_delete_need_a_selection_witness :
  MembershipsEdit.handleDelete
    (MembershipsEdit.settled
       (MembershipsEdit.handleDelete
          (MembershipsEdit.openDeleteModal (membershipOf 1 "active") MembershipsEdit.initial))
       Resolved
       (MembershipsEdit.openDeleteModal (membershipOf 1 "active") MembershipsEdit.initial))
  = MembershipsEdit.Returned
  ∧ MembershipsEdit.handleDelete MembershipsEdit.initial = MembershipsEdit.Returned.
Proof.
  destruct (edit_and_delete_need_a_selection
              (MembershipsEdit.openDeleteModal (membershipOf 1 "active") MembershipsEdit.initial)
              (MembershipsEdit.openDeleteModal (membershipOf 1 "active") MembershipsEdit.initial))
    as (_ & Hdeleted & _).
  destruct (edit_and_delete_need_a_selection MembershipsEdit.initial MembershipsEdit.initial)
    as (Hnone & _).
  split.
  - apply Hdeleted. eexists. reflexivity.
  - apply Hnone. reflexivity.
Defined.

(** ** Highlights *)

(** X19.  After a plan of the catalog is selected, the highlighted cards
    of the catalog are exactly that plan's.  In the member's form the
    highlight follows the amount: typing another plan's price highlights
    that plan.  In the membership form it follows the type name: the card
    stays highlighted after the duration and the fee are edited. *)
Theorem highlight_follows_amount_or_type_name :
  (∀ (st : MemberPayment.State) (plan other : MemberPayment.Plan),
     plan ∈ MemberPayment.membershipPlans →
     other ∈ MemberPayment.membershipPlans →
     (planHighlighted other (MemberPayment.selectPlan plan st) = true ↔ other = plan)
     ∧ planHighlighted other
         (MemberPayment.amountChanged (MemberPayment.price other)
            (MemberPayment.selectPlan plan st)) = true)
  ∧ (∀ (st : MembershipsManagement.State) (type other : MembershipsManagement.MembershipType)
       (days price : number),
       type ∈ MembershipsManagement.membershipTypes →
       other ∈ MembershipsManagement.membershipTypes →
       (typeHighlighted other (MembershipsManagement.selectMembershipType type st) = true
        ↔ other = type)
       ∧ typeHighlighted type
           (MembershipsManagement.feeChanged price
              (MembershipsManagement.durationChanged days
                 (MembershipsManagement.selectMembershipType type st))) = true).
Proof.
  split.
  - intros st plan other Hplan Hother.
    unfold planHighlighted. simpl.
    each_of Hplan; each_of Hother; simpl;
      (split; [split; [intros H; try reflexivity; discriminate H
                      | intros H; try reflexivity; discriminate H]
              | reflexivity]).
  - intros st type other days price Htype Hother.
    unfold typeHighlighted. simpl.
    split; [| apply bool_decide_eq_true; reflexivity].
    rewrite bool_decide_eq_true.
    each_of Htype; each_of Hother; simpl;
      (split; intros H; try reflexivity; discriminate H).
Qed.

Lemma highlight_follows_amount_or_type_name_witness :
  planHighlighted
    {| MemberPayment.name := "Annual"; MemberPayment.duration := Num 365;
       MemberPayment.price := Num 480000 |}
    (MemberPayment.amountChanged (Num 480000)
       (MemberPayment.selectPlan
          {| MemberPayment.name := "Monthly"; MemberPayment.duration := Num 30;
             MemberPayment.price := Num 50000 |} (memberAt (Num 0)))) = true
  ∧ typeHighlighted
      {| MembershipsManagement.label := "Annual"; MembershipsManagement.duration := Num 365;
         MembershipsManagement.fee := Num 550000 |}
      (MembershipsManagement.feeChanged (Num 1)
         (MembershipsManagement.durationChanged (Num 1)
            (MembershipsManagement.selectMembershipType
               {| MembershipsManagement.label := "Annual";
                  MembershipsManagement.duration := Num 365;
                  MembershipsManagement.fee := Num 550000 |}
               (membershipFormAt "")))) = true.
Proof.
  destruct highlight_follows_amount_or_type_name as [Hplan Htype].
  split.
  - apply (Hplan (memberAt (Num 0))); vm_compute; repeat constructor.
  - apply (Htype (membershipFormAt "")); vm_compute; repeat constructor.
Defined.
